(** * Soul Marketplace: survival economy and coordination engine

    A shallow embedding of the Python sources of the soul marketplace
    (agent_coordination.py, soul_survival.py, enhanced_survival.py,
    spending_guardrails.py, reputation_engine.py, auto_scaling.py and
    ipfs_storage.py) together with the properties stated for them.

    Conventions of the embedding.
    - A Python [float] is read as an exact rational ([Q]): comparisons,
      sums and differences are the mathematical ones, so rounding error,
      infinities and NaN are outside the model.
    - A Python [dict] is an insertion-ordered association list ([Dict.t]):
      assignment to an existing key keeps its position, assignment to a new
      key appends.
    - Every method that reads [time.time()] takes the reading as an
      argument [now]; one call sees one reading.
    - The JSON files each class saves after a mutation are copies of the
      in-memory state and are not modelled separately.  Console output is
      modelled only where a property depends on it ([request_loan]). *)

From Stdlib Require Import QArith Qround Qminmax ZArith List String Ascii Bool.
From Stdlib Require Import Lia Lqa DecimalString Permutation Sorted.
Import ListNotations.

Open Scope string_scope.
Open Scope list_scope.
Open Scope Q_scope.

(** ** Python values *)

Module Py.

(** [a < b] on floats. *)
Definition ltb (a b : Q) : bool := negb (Qle_bool b a).

(** [a > b] on floats. *)
Definition gtb (a b : Q) : bool := ltb b a.

(** [min(a, b)]: the first argument unless the second is strictly smaller. *)
Definition min (a b : Q) : Q := if ltb b a then b else a.

(** [int(x)] truncates towards zero. *)
Definition int (x : Q) : Z := Z.quot (Qnum x) (Zpos (Qden x)).

(** [str(n)] for an integer [n], as an f-string prints it. *)
Definition str (n : Z) : string := NilZero.string_of_int (Z.to_int n).

(** Truthiness of a string: the empty string is falsy. *)
Definition truthy_str (s : string) : bool :=
  match s with EmptyString => false | _ => true end.

(** [x in l] for a list of strings. *)
Definition in_list (x : string) (l : list string) : bool :=
  existsb (String.eqb x) l.

(** [l[-n:]], the last [n] items of [l]. *)
Definition last_n {A : Type} (n : nat) (l : list A) : list A :=
  skipn (List.length l - n) l.

(** [max(l, key=key)] on a non-empty list: the first item whose key is
    not exceeded by a later one; [None] stands for the [ValueError] on
    an empty list. *)
Fixpoint max_by {A : Type} (key : A -> Q) (l : list A) : option A :=
  match l with
  | [] => None
  | x :: l' =>
      match max_by key l' with
      | None => Some x
      | Some y => if ltb (key x) (key y) then Some y else Some x
      end
  end.

End Py.

(** ** Insertion-ordered dictionaries with string keys *)

Module Dict.

Definition t (V : Type) : Type := list (string * V).

Definition empty {V : Type} : t V := [].

(** [d.get(k)] *)
Fixpoint get {V : Type} (k : string) (d : t V) : option V :=
  match d with
  | [] => None
  | (k', v) :: d' => if String.eqb k k' then Some v else get k d'
  end.

(** [k in d] *)
Definition mem {V : Type} (k : string) (d : t V) : bool :=
  match get k d with Some _ => true | None => false end.

(** [d[k] = v] *)
Fixpoint set {V : Type} (k : string) (v : V) (d : t V) : t V :=
  match d with
  | [] => [(k, v)]
  | (k', v') :: d' =>
      if String.eqb k k' then (k, v) :: d' else (k', v') :: set k v d'
  end.

(** [d.keys()] and [d.values()], in insertion order. *)
Definition keys {V : Type} (d : t V) : list string := map fst d.
Definition values {V : Type} (d : t V) : list V := map snd d.

(** A dictionary holds each key once. *)
Definition wf {V : Type} (d : t V) : Prop := NoDup (keys d).

End Dict.

(** ** agent_coordination.py *)

Module AgentCoordinationNetwork.

Record AgentProfile : Type := mkAgentProfile {
  agent_id : string;
  soul_cid : string;
  capabilities : list string;
  tier : string;
  balance : Q;
  reputation : Q;
  last_seen : Q;
  is_active : bool;
  offers_help : bool;
  seeking_help : bool
}.

(** The [offer] dictionary that [offer_help] wraps into a message. *)
Record Offer : Type := mkOffer {
  offer_amount : Q;
  offer_message : string
}.

(** [CoordinationMessage.content] of an offer message:
    [{offer_type: ..., offer: ...}]. *)
Record Content : Type := mkContent {
  offer_type : string;
  offer : Offer
}.

Record CoordinationMessage : Type := mkCoordinationMessage {
  msg_id : string;
  sender : string;
  recipient : string;
  msg_type : string;
  content : Content;
  timestamp : Q;
  signature : string
}.

(** A loan dictionary as [request_loan] builds it. *)
Record Loan : Type := mkLoan {
  loan_id : string;
  loan_agent_id : string;
  loan_amount : Q;
  loan_purpose : string;
  loan_timestamp : Q;
  repaid : bool
}.

Record ResourcePool : Type := mkResourcePool {
  pool_id : string;
  name : string;
  total_balance : Q;
  contributors : Dict.t Q;
  loans : list Loan;
  created_at : Q
}.

(** The state of an [AgentCoordinationNetwork] object. *)
Record Network : Type := mkNetwork {
  agents : Dict.t AgentProfile;
  messages : list CoordinationMessage;
  pools : Dict.t ResourcePool
}.

(** Lines [request_loan] prints, by the statement that prints them. *)
Inductive Printed : Type :=
| ReputationTooLow (agent : string)
| InsufficientFunds (pool_name : string)
| LoanGranted (agent : string) (amount : Q) (purpose : string).

Definition set_reputation (a : AgentProfile) (r : Q) : AgentProfile :=
  mkAgentProfile (agent_id a) (soul_cid a) (capabilities a) (tier a)
    (balance a) r (last_seen a) (is_active a) (offers_help a)
    (seeking_help a).

Definition set_last_seen (a : AgentProfile) (t : Q) : AgentProfile :=
  mkAgentProfile (agent_id a) (soul_cid a) (capabilities a) (tier a)
    (balance a) (reputation a) t (is_active a) (offers_help a)
    (seeking_help a).

Definition set_timestamp (m : CoordinationMessage) (t : Q)
  : CoordinationMessage :=
  mkCoordinationMessage (msg_id m) (sender m) (recipient m) (msg_type m)
    (content m) t (signature m).

Definition with_agents (net : Network) (a : Dict.t AgentProfile) : Network :=
  mkNetwork a (messages net) (pools net).

Definition with_messages (net : Network) (m : list CoordinationMessage)
  : Network :=
  mkNetwork (agents net) m (pools net).

Definition with_pools (net : Network) (p : Dict.t ResourcePool) : Network :=
  mkNetwork (agents net) (messages net) p.

(** [register_agent]: stamps [last_seen] and stores the profile under its
    own [agent_id]. *)
Definition register_agent (net : Network) (profile : AgentProfile) (now : Q)
  : Network * bool :=
  (with_agents net
     (Dict.set (agent_id profile) (set_last_seen profile now) (agents net)),
   true).

(** [find_agents_needing_help] *)
Definition find_agents_needing_help (net : Network) : list AgentProfile :=
  filter (fun agent =>
            String.eqb (tier agent) "CRITICAL"
            && seeking_help agent && is_active agent)
         (Dict.values (agents net)).

(** [send_message]: stamps the message, appends it and keeps the last
    1000 messages. *)
Definition send_message (net : Network) (message : CoordinationMessage)
  (now : Q) : Network * bool :=
  let msgs := messages net ++ [set_timestamp message now] in
  let msgs := if (1000 <? List.length msgs)%nat then Py.last_n 1000 msgs else msgs in
  (with_messages net msgs, true).

(** [offer_help]: sends one offer message and raises the reputation of a
    registered helper by 1, capped at 100. *)
Definition offer_help (net : Network) (agent target_agent offer_ty : string)
  (off : Offer) (now : Q) : Network * bool :=
  let msg :=
    mkCoordinationMessage
      ("offer_" ++ Py.str (Py.int now) ++ "_" ++ agent)%string
      agent target_agent "offer" (mkContent offer_ty off) 0 "" in
  let net := fst (send_message net msg now) in
  match Dict.get agent (agents net) with
  | Some a =>
      (with_agents net
         (Dict.set agent (set_reputation a (Py.min 100 (reputation a + 1)))
                   (agents net)),
       true)
  | None => (net, true)
  end.

(** [create_resource_pool] *)
Definition create_resource_pool (net : Network)
  (pid nm creator_id : string) (initial_contribution : Q) (now : Q)
  : Network * ResourcePool :=
  let pool :=
    mkResourcePool pid nm initial_contribution
      (Dict.set creator_id initial_contribution Dict.empty) [] now in
  (with_pools net (Dict.set pid pool (pools net)), pool).

(** [contribute_to_pool] *)
Definition contribute_to_pool (net : Network) (pid agent : string)
  (amount : Q) : Network * bool :=
  match Dict.get pid (pools net) with
  | None => (net, false)
  | Some pool =>
      let pool :=
        mkResourcePool (pool_id pool) (name pool)
          (total_balance pool + amount)
          (Dict.set agent
             (match Dict.get agent (contributors pool) with
              | Some c => c
              | None => 0
              end + amount)
             (contributors pool))
          (loans pool) (created_at pool) in
      let net := with_pools net (Dict.set pid pool (pools net)) in
      match Dict.get agent (agents net) with
      | Some a =>
          (with_agents net
             (Dict.set agent
                (set_reputation a (Py.min 100 (reputation a + 2)))
                (agents net)),
           true)
      | None => (net, true)
      end
  end.

(** [request_loan]: the network after the call, the returned loan
    ([None] for Python's [None]) and the lines printed. *)
Definition request_loan (net : Network) (pid agent : string) (amount : Q)
  (purpose : string) (now : Q) : Network * option Loan * list Printed :=
  match Dict.get pid (pools net) with
  | None => (net, None, [])
  | Some pool =>
      if match Dict.get agent (agents net) with
         | Some a => Py.ltb (reputation a) 20
         | None => false
         end
      then (net, None, [ReputationTooLow agent])
      else if Py.ltb (total_balance pool) amount
      then (net, None, [InsufficientFunds (name pool)])
      else
        let loan :=
          mkLoan ("loan_" ++ Py.str (Py.int now) ++ "_" ++ agent)%string
                 agent amount purpose now false in
        let pool :=
          mkResourcePool (pool_id pool) (name pool)
            (total_balance pool - amount) (contributors pool)
            (loans pool ++ [loan]) (created_at pool) in
        (with_pools net (Dict.set pid pool (pools net)),
         Some loan,
         [LoanGranted agent amount purpose])
  end.

(** One iteration of the loop of [run_mutual_aid_round] for the needy
    agent [need].  [helpers] holds references into the registry (its
    keys): the profiles are read through the registry, so a reputation
    raised by an earlier iteration is seen by a later one. *)
Definition mutual_aid_step (helpers : list string) (now : Q)
  (acc : Network * nat) (need : AgentProfile) : Network * nat :=
  let (net, matches) := acc in
  let deref :=
    flat_map (fun k => match Dict.get k (agents net) with
                       | Some h => [h]
                       | None => []
                       end) helpers in
  let available_helpers := filter (fun h => Py.gtb (balance h) 0.01) deref in
  match Py.max_by reputation available_helpers with
  | Some helper =>
      (fst (offer_help net (agent_id helper) (agent_id need) "funding"
              (mkOffer 0.01 "Mutual aid funding") now),
       S matches)
  | None => (net, matches)
  end.

(** [run_mutual_aid_round]: the network after the round and the number
    of matches returned. *)
Definition run_mutual_aid_round (net : Network) (now : Q) : Network * nat :=
  let needy := find_agents_needing_help net in
  let helpers :=
    map fst
      (filter (fun kv =>
                 offers_help (snd kv)
                 && Py.in_list (tier (snd kv)) ["NORMAL"; "THRIVING"])
              (agents net)) in
  fold_left (mutual_aid_step helpers now) needy (net, 0%nat).

End AgentCoordinationNetwork.

(** ** The soul document

    [SOUL.md] is a JSON object; the classes below read it through
    [dict.get] with defaults, so the keys they read are optional here. *)

Module Soul.

(** One entry of the [capabilities] list. *)
Record Capability : Type := mkCapability {
  cap_name : string;
  cap_earnings : option Q
}.

Record t : Type := mkSoul {
  current_balance : option Q;
  capabilities : option (list Capability);
  purpose : option string
}.

(** [soul.get('current_balance', d)] *)
Definition get_current_balance (soul : t) (d : Q) : Q :=
  match current_balance soul with Some b => b | None => d end.


End Soul.

(** ** soul_survival.py *)

Module OpenClawSoulSurvival.

(** Survival tiers (class attributes). *)
Definition CRITICAL : Q := 0.001.
Definition LOW : Q := 0.01.
Definition NORMAL : Q := 0.1.
Definition THRIVING : Q := 1.0.

Definition get_balance (soul : Soul.t) : Q :=
  Soul.get_current_balance soul 0.0.

Definition get_tier (soul : Soul.t) : string :=
  let balance := get_balance soul in
  if Py.ltb balance CRITICAL then "CRITICAL"
  else if Py.ltb balance LOW then "LOW"
  else if Py.ltb balance NORMAL then "NORMAL"
  else "THRIVING".

End OpenClawSoulSurvival.

(** ** enhanced_survival.py *)

Module EnhancedSoulSurvival.

Definition get_tier (soul : Soul.t) : string :=
  let balance := Soul.get_current_balance soul 0.0 in
  if Py.ltb balance 0.001 then "CRITICAL"
  else if Py.ltb balance 0.01 then "LOW"
  else if Py.ltb balance 0.1 then "NORMAL"
  else "THRIVING".

End EnhancedSoulSurvival.

(** ** spending_guardrails.py *)

Module SpendingGuardrails.

(** The class attributes; [UltraSafeSpending] overrides them. *)
Record Thresholds : Type := mkThresholds {
  MICRO_PAYMENT_MAX : Q;
  SMALL_PAYMENT_MAX : Q;
  MEDIUM_PAYMENT_MAX : Q;
  LARGE_PAYMENT_MIN : Q;
  DEFAULT_DAILY_LIMIT : Q;
  DEFAULT_WEEKLY_LIMIT : Q
}.

Definition SpendingGuardrails_class : Thresholds :=
  mkThresholds 0.01 0.10 1.00 1.00 5.00 20.00.

Definition UltraSafeSpending_class : Thresholds :=
  mkThresholds 0.001 0.01 0.10 0.10 1.00 5.00.

(** The keys of [self.config] the methods read. *)
Record Config : Type := mkConfig {
  daily_limit : option Q;
  weekly_limit : option Q;
  blocked_recipients : option (list string);
  config_emergency_stop : option bool
}.

(** A ledger entry; its [date] key is the ISO rendering of the same
    clock reading as [tx_timestamp] and is not kept apart. *)
Record Transaction : Type := mkTransaction {
  tx_timestamp : Q;
  tx_amount : Q;
  tx_recipient : string;
  tx_purpose : string;
  tx_hash : option string
}.

Record History : Type := mkHistory {
  transactions : list Transaction;
  daily_total : option Q;
  weekly_total : option Q;
  last_reset : option Q
}.

(** The state of a [SpendingGuardrails] object. *)
Record t : Type := mkGuardrails {
  cls : Thresholds;
  config : Config;
  history : History;
  emergency_stop : bool
}.

Inductive Reason : Type :=
| EmergencyStopActive
| DailyLimitExceeded (daily_spent limit : Q)
| RecipientBlacklisted
| MicroPayment
| SmallPayment (amount : Q)
| MediumPayment (amount : Q)
| LargePaymentRequiresApproval
| UserDeniedApproval.

Inductive Prompt : Type :=
| EmergencyStopPrompt
| DailyLimitPrompt (daily_spent limit : Q)
| BlockedPrompt (recipient : string)
| LargePaymentPrompt (amount : Q) (recipient : option string)
    (purpose : string) (daily_spent limit : Q).

(** The dictionary [can_spend] returns; absent keys are [None]. *)
Record Decision : Type := mkDecision {
  allowed : bool;
  reason : Reason;
  requires_approval : bool;
  approval_prompt : option Prompt;
  notification : option (Q * string)
}.

(** The dictionary [spend] returns. *)
Record SpendResult : Type := mkSpendResult {
  success : bool;
  spend_reason : Reason;
  spend_amount : Q;
  spend_daily_total : option Q
}.

Definition with_history (g : t) (h : History) : t :=
  mkGuardrails (cls g) (config g) h (emergency_stop g).

(** [self.config.get('daily_limit', self.DEFAULT_DAILY_LIMIT)] *)
Definition get_daily_limit (g : t) : Q :=
  match daily_limit (config g) with
  | Some l => l
  | None => DEFAULT_DAILY_LIMIT (cls g)
  end.

(** [self.history.get('daily_total', 0)] *)
Definition get_daily_total (g : t) : Q :=
  match daily_total (history g) with Some d => d | None => 0 end.

(** [recipient and recipient in self.config.get('blocked_recipients', [])] *)
Definition is_blocked (g : t) (recipient : option string) : bool :=
  match recipient with
  | None => false
  | Some r =>
      Py.truthy_str r
      && Py.in_list r
           (match blocked_recipients (config g) with
            | Some l => l
            | None => []
            end)
  end.

(** [_reset_if_needed] *)
Definition _reset_if_needed (g : t) (now : Q) : t :=
  let h := history g in
  let last := match last_reset h with Some r => r | None => 0 end in
  if Py.gtb (now - last) 86400
  then with_history g
         (mkHistory (transactions h) (Some 0.0) (weekly_total h) (Some now))
  else g.

(** [can_spend]: the object after the call and the decision returned. *)
Definition can_spend (g : t) (amount : Q) (recipient : option string)
  (purpose : string) (now : Q) : t * Decision :=
  let g := _reset_if_needed g now in
  if emergency_stop g then
    (g, mkDecision false EmergencyStopActive true
          (Some EmergencyStopPrompt) None)
  else
    let daily_spent := get_daily_total g in
    let limit := get_daily_limit g in
    if Py.gtb (daily_spent + amount) limit then
      (g, mkDecision false (DailyLimitExceeded daily_spent limit) true
            (Some (DailyLimitPrompt daily_spent limit)) None)
    else if is_blocked g recipient then
      (g, mkDecision false RecipientBlacklisted true
            (option_map BlockedPrompt recipient) None)
    else if Py.ltb amount (MICRO_PAYMENT_MAX (cls g)) then
      (g, mkDecision true MicroPayment false None None)
    else if Py.ltb amount (SMALL_PAYMENT_MAX (cls g)) then
      (g, mkDecision true (SmallPayment amount) false None None)
    else if Py.ltb amount (MEDIUM_PAYMENT_MAX (cls g)) then
      (g, mkDecision true (MediumPayment amount) false None
            (Some (amount, purpose)))
    else
      (g, mkDecision false LargePaymentRequiresApproval true
            (Some (LargePaymentPrompt amount recipient purpose
                     daily_spent limit))
            None).

(** [record_spending]: [None] stands for the [KeyError] raised when the
    history has no [daily_total] or [weekly_total]. *)
Definition record_spending (g : t) (amount : Q) (recipient purpose : string)
  (hash : option string) (now : Q) : option t :=
  let h := history g in
  let txs := transactions h
             ++ [mkTransaction now amount recipient purpose hash] in
  match daily_total h, weekly_total h with
  | Some d, Some w =>
      let txs :=
        if (1000 <? List.length txs)%nat then Py.last_n 1000 txs else txs in
      Some (with_history g
              (mkHistory txs (Some (d + amount)) (Some (w + amount))
                 (last_reset h)))
  | _, _ => None
  end.

(** [request_approval] prints the prompt and denies. *)
Definition request_approval (prompt : option Prompt) : bool := false.

(** [spend]: [None] stands for a [KeyError] of [record_spending]. *)
Definition spend (g : t) (amount : Q) (recipient purpose : string)
  (auto_approve_micro : bool) (now : Q) : option (t * SpendResult) :=
  let (g, check) := can_spend g amount (Some recipient) purpose now in
  if negb (allowed check) && negb (requires_approval check) then
    Some (g, mkSpendResult false (reason check) amount None)
  else if requires_approval check
          && negb (auto_approve_micro
                   && Py.ltb amount (MICRO_PAYMENT_MAX (cls g)))
          && negb (request_approval (approval_prompt check)) then
    Some (g, mkSpendResult false UserDeniedApproval amount None)
  else
    match record_spending g amount recipient purpose None now with
    | Some g' =>
        Some (g', mkSpendResult true (reason check) amount
                    (daily_total (history g')))
    | None => None
    end.

End SpendingGuardrails.

(** ** reputation_engine.py *)

Module ReputationEngine.

Record ReputationScore : Type := mkReputationScore {
  rep_agent_id : string;
  overall_score : Q;
  reliability : Q;
  quality : Q;
  honesty : Q;
  helpfulness : Q;
  longevity : Q;
  total_transactions : Z;
  positive_ratings : Z;
  negative_ratings : Z;
  last_updated : Q
}.

Record PerformanceMetrics : Type := mkPerformanceMetrics {
  agent_id : string;
  tasks_completed : Z;
  tasks_failed : Z;
  total_earnings : Q;
  total_spent : Q;
  avg_task_value : Q;
  uptime_hours : Q;
  backups_created : Z;
  souls_traded : Z;
  clones_created : Z;
  children_survived : Z
}.

(** The state of a [ReputationEngine] object. *)
Record t : Type := mkEngine {
  reputations : Dict.t ReputationScore;
  performance : Dict.t PerformanceMetrics
}.

(** Rounding to the nearest integer, ties to the even one. *)
Definition round_half_even (x : Q) : Z :=
  let f := Qfloor x in
  let r := x - inject_Z f in
  if Py.ltb r (1 # 2) then f
  else if Py.ltb (1 # 2) r then (f + 1)%Z
  else if Z.even f then f else (f + 1)%Z.

(** [round(x, 2)] *)
Definition round2 (x : Q) : Q := inject_Z (round_half_even (x * 100)) / 100.

(** The metrics [calculate_reputation] assumes for an unknown agent. *)
Definition default_metrics (id : string) : PerformanceMetrics :=
  mkPerformanceMetrics id 0 0 0 0 0 0 0 0 0 0.

(** [calculate_reputation]: the engine after the call and the score
    returned. *)
Definition calculate_reputation (e : t) (id : string) (now : Q)
  : t * ReputationScore :=
  let perf :=
    match Dict.get id (performance e) with
    | Some p => p
    | None => default_metrics id
    end in
  let total_tasks := (tasks_completed perf + tasks_failed perf)%Z in
  let reliability :=
    if (0 <? total_tasks)%Z
    then inject_Z (tasks_completed perf) / inject_Z total_tasks * 100
    else 50 in
  let quality := Py.min 100 (total_earnings perf / 0.1 * 100) in
  let honesty := 95 in
  let helpfulness :=
    Py.min 100
      (inject_Z (clones_created perf * 10 + children_survived perf * 5)) in
  let longevity := Py.min 100 (uptime_hours perf / 10) in
  let overall :=
    reliability * 0.3 + quality * 0.25 + honesty * 0.2
    + helpfulness * 0.15 + longevity * 0.1 in
  let rep :=
    mkReputationScore id (round2 overall) (round2 reliability)
      (round2 quality) (round2 honesty) (round2 helpfulness)
      (round2 longevity) (souls_traded perf) 0 0 now in
  (mkEngine (Dict.set id rep (reputations e)) (performance e), rep).

End ReputationEngine.

(** ** auto_scaling.py *)

Module AutoScalingManager.

Record ChildAgent : Type := mkChildAgent {
  child_id : string;
  parent_id : string;
  genesis_prompt : string;
  inherited_capabilities : list string;
  initial_funding : Q;
  birth_time : Q;
  soul_cid : option string;
  token_id : option Z;
  status : string;
  earnings : Q
}.


(** The state of an [AutoScalingManager] object; of [self.config] the
    key [inheritance_mode] is the one read here. *)
Record t : Type := mkManager {
  manager_parent_id : string;
  children : Dict.t ChildAgent;
  inheritance_mode : string
}.


(** [c.get('earnings', 0)] *)
Definition earnings_key (c : Soul.Capability) : Q :=
  match Soul.cap_earnings c with Some e => e | None => 0 end.

(** Insertion into a list sorted by decreasing key, before the first
    item whose key is not larger. *)
Fixpoint insert_desc (c : Soul.Capability) (l : list Soul.Capability)
  : list Soul.Capability :=
  match l with
  | [] => [c]
  | d :: l' =>
      if Py.ltb (earnings_key c) (earnings_key d)
      then d :: insert_desc c l'
      else c :: l
  end.

(** [sorted(caps, key=earnings, reverse=True)]: stable, largest first. *)
Definition sorted_desc (caps : list Soul.Capability) : list Soul.Capability :=
  fold_right insert_desc [] caps.



Section Spawning.

(** [random.sample(population, k)], the choice left to the caller. *)
Variable sample : list Soul.Capability -> nat -> list Soul.Capability.

(** [select_inherited_capabilities] *)
Definition select_inherited_capabilities (m : t)
  (parent_capabilities : list Soul.Capability) : list string :=
  let mode := inheritance_mode m in
  if String.eqb mode "best" then
    map Soul.cap_name (firstn 3 (sorted_desc parent_capabilities))
  else if String.eqb mode "all" then
    map Soul.cap_name parent_capabilities
  else if String.eqb mode "random" then
    map Soul.cap_name
      (sample parent_capabilities
         (Nat.min 3 (List.length parent_capabilities)))
  else
    map Soul.cap_name (firstn 3 parent_capabilities).




End Spawning.

End AutoScalingManager.

(** ** ipfs_storage.py *)

Module IpfsStorage.

(** Values of the [json] module of Python. *)
#[warnings="-register-all"]
Inductive json : Type :=
| JNull
| JBool (b : bool)
| JNum (q : Q)
| JStr (s : string)
| JList (l : list json)
| JDict (d : list (string * json)).

(** Truthiness of a decoded value, as [if data:] tests it. *)
Definition truthy (v : json) : bool :=
  match v with
  | JNull => false
  | JBool b => b
  | JNum q => negb (Qeq_bool q 0)
  | JStr s => Py.truthy_str s
  | JList l => match l with [] => false | _ => true end
  | JDict d => match d with [] => false | _ => true end
  end.

(** What [ipfs add] on the local node ends with. *)
Inductive LocalNode : Type :=
| Added (cid : string)
| AddFailed
| NotInstalled.

(** The library functions and outside services the module calls:
    [hashlib.sha256(s.encode()).hexdigest()], [json.dumps] (by its
    [indent] and [sort_keys] arguments), [json.loads] ([None] when the
    text is not JSON), the local IPFS node, Pinata ([None] when it is
    not configured or fails) and the HTTP gateways ([None] when none of
    them answers). *)
Record World : Type := mkWorld {
  sha256_hexdigest : string -> string;
  json_dumps : option nat -> bool -> json -> string;
  json_loads : string -> option json;
  ipfs_add : string -> LocalNode;
  pinata_pin : string -> option string;
  gateway_get : string -> option json
}.

(** A call that may raise. *)
Inductive result (A : Type) : Type :=
| Ok (a : A)
| Raised.
Arguments Ok {A} a.
Arguments Raised {A}.

(** The state of an [IPFSStorage] object: the files of its cache
    directory, by name. *)
Record IPFSStorage : Type := mkIPFSStorage {
  use_local : bool;
  cache : Dict.t string
}.

Record BackupRecord : Type := mkBackupRecord {
  cid : string;
  hash : string;
  timestamp : Q;
  type : string;
  capabilities_hash : string;
  earnings : json
}.

(** The state of an [OnChainSoulManager] object. *)
Record OnChainSoulManager : Type := mkOnChainSoulManager {
  soul_id : string;
  ipfs : IPFSStorage;
  backup_interval : Q;
  last_backup : Q;
  current_cid : option string;
  backup_history : list BackupRecord
}.

Section Lib.

Variable w : World.

(** [calculate_hash] *)
Definition calculate_hash (content : string) : string :=
  String.substring 0 46 (sha256_hexdigest w content).

Definition cache_file (c : string) : string := (c ++ ".json")%string.

(** [_upload_local] *)
Definition _upload_local (content : string) : result string :=
  match ipfs_add w content with
  | Added c => Ok c
  | AddFailed => Raised
  | NotInstalled => Ok (calculate_hash content)
  end.

(** [_upload_pinata] *)
Definition _upload_pinata (content : string) : string :=
  match pinata_pin w content with
  | Some c => c
  | None => calculate_hash content
  end.

(** [upload_to_ipfs] *)
Definition upload_to_ipfs (s : IPFSStorage) (soul_data : list (string * json))
  (use_pinata : bool) : IPFSStorage * result string :=
  let content := json_dumps w (Some 2%nat) false (JDict soul_data) in
  if use_local s then (s, _upload_local content)
  else if use_pinata then (s, Ok (_upload_pinata content))
  else
    let c := calculate_hash content in
    (mkIPFSStorage (use_local s) (Dict.set (cache_file c) content (cache s)),
     Ok c).

(** [retrieve_from_ipfs] *)
Definition retrieve_from_ipfs (s : IPFSStorage) (c : string)
  : IPFSStorage * result (option json) :=
  match Dict.get (cache_file c) (cache s) with
  | Some text =>
      match json_loads w text with
      | Some data => (s, Ok (Some data))
      | None => (s, Raised)
      end
  | None =>
      match gateway_get w c with
      | Some data =>
          (mkIPFSStorage (use_local s)
             (Dict.set (cache_file c) (json_dumps w None false data)
                       (cache s)),
           Ok (Some data))
      | None => (s, Ok None)
      end
  end.

(** The hash [backup_soul] and [verify_content] take of a document. *)
Definition content_hash (data : json) : string :=
  sha256_hexdigest w (json_dumps w None true data).

(** [backup_soul] *)
Definition backup_soul (m : OnChainSoulManager)
  (soul_data : list (string * json)) (backup_type : string) (now : Q)
  : OnChainSoulManager * result string :=
  match upload_to_ipfs (ipfs m) soul_data false with
  | (s, Raised) =>
      (mkOnChainSoulManager (soul_id m) s (backup_interval m) (last_backup m)
         (current_cid m) (backup_history m),
       Raised)
  | (s, Ok c) =>
      let soul_hash := content_hash (JDict soul_data) in
      let backup_record :=
        mkBackupRecord c soul_hash now backup_type
          (String.substring 0 16
             (sha256_hexdigest w
                (json_dumps w None false
                   (match Dict.get "capabilities" soul_data with
                    | Some v => v
                    | None => JList []
                    end))))
          (match Dict.get "total_lifetime_earnings" soul_data with
           | Some v => v
           | None => JNum 0
           end) in
      (mkOnChainSoulManager (soul_id m) s (backup_interval m) now (Some c)
         (backup_history m ++ [backup_record]),
       Ok c)
  end.

(** [history[-1]], when the history is not empty. *)
Definition last_record (history : list BackupRecord) : option BackupRecord :=
  match rev history with
  | r :: _ => Some r
  | [] => None
  end.


End Lib.

End IpfsStorage.

(** ** Vocabulary of the properties *)

Module PoolLedger.
Import AgentCoordinationNetwork.

(** A call on the pool ledger. *)
Inductive Call : Type :=
| Contribute (pid agent : string) (amount : Q)
| RequestLoan (pid agent : string) (amount : Q) (purpose : string) (now : Q).

(** The network after one call. *)
Definition run_call (net : Network) (c : Call) : Network :=
  match c with
  | Contribute pid agent amount => fst (contribute_to_pool net pid agent amount)
  | RequestLoan pid agent amount purpose now =>
      fst (fst (request_loan net pid agent amount purpose now))
  end.

(** The network after a sequence of calls, first call first. *)
Definition run_calls (net : Network) (calls : list Call) : Network :=
  fold_left run_call calls net.

(** Contributions carry a non-negative amount. *)
Definition nonneg_contribution (c : Call) : Prop :=
  match c with
  | Contribute _ _ amount => 0 <= amount
  | RequestLoan _ _ _ _ _ => True
  end.

(** The pool [pid] exists and its balance is not negative. *)
Definition solvent (net : Network) (pid : string) : Prop :=
  exists pool,
    Dict.get pid (pools net) = Some pool /\ 0 <= total_balance pool.

(** A network with no agent, message or pool. *)
Definition empty_network : Network := mkNetwork Dict.empty [] Dict.empty.

(** The calls of the demonstration in [main]. *)
Definition demo_calls : list Call :=
  [Contribute "emergency_fund" "agent_beta" 0.05;
   RequestLoan "emergency_fund" "agent_gamma" 0.02 "Survival funding" 1000].

(** The scenario of the loan gate: a pool holding 0.1, agent A of
    reputation 15 and agent B of reputation 50. *)
Definition scenario_agent (id : string) (rep : Q) : AgentProfile :=
  mkAgentProfile id "Qm" ["coding"] "NORMAL" 0.05 rep 0 true false false.

Definition scenario_pool : ResourcePool :=
  mkResourcePool "emergency_fund" "Emergency Fund" 0.1
    [("agent_alpha", 0.1)] [] 0.

Definition scenario_network : Network :=
  mkNetwork [("A", scenario_agent "A" 15); ("B", scenario_agent "B" 50)]
    [] [("emergency_fund", scenario_pool)].

End PoolLedger.

Module Examples.

(** A soul holding the balance [b]. *)
Definition soul_with_balance (b : Q) : Soul.t := Soul.mkSoul (Some b) None None.

(** A guardrail object of the base class with the default configuration,
    except for one blocked recipient; 3 spent today and this week, the
    windows last reset at time 0. *)
Definition guarded : SpendingGuardrails.t :=
  SpendingGuardrails.mkGuardrails
    SpendingGuardrails.SpendingGuardrails_class
    (SpendingGuardrails.mkConfig (Some 5.00) (Some 20.00) (Some ["scammer"])
       (Some false))
    (SpendingGuardrails.mkHistory [] (Some 3) (Some 3) (Some 0))
    false.

End Examples.

Module ReputationSpec.
Import ReputationEngine.

(** The metrics [calculate_reputation] works on for the agent [id]. *)
Definition metrics_of (e : t) (id : string) : PerformanceMetrics :=
  match Dict.get id (performance e) with
  | Some p => p
  | None => default_metrics id
  end.

(** No counter of the record is negative. *)
Definition nonneg_counters (p : PerformanceMetrics) : Prop :=
  (0 <= tasks_completed p)%Z /\ (0 <= tasks_failed p)%Z
  /\ 0 <= total_earnings p /\ 0 <= total_spent p /\ 0 <= uptime_hours p
  /\ (0 <= backups_created p)%Z /\ (0 <= souls_traded p)%Z
  /\ (0 <= clones_created p)%Z /\ (0 <= children_survived p)%Z.

(** The six scores of a reputation record. *)
Definition scores (r : ReputationScore) : Q * Q * Q * Q * Q * Q :=
  (reliability r, quality r, honesty r, helpfulness r, longevity r,
   overall_score r).

(** The engine after the demonstration of [main] has recorded the work
    of agent_alpha: two tasks, one sale, one surviving clone, one backup
    and 100 hours of uptime. *)
Definition demo_engine : t :=
  mkEngine []
    [("agent_alpha",
      mkPerformanceMetrics "agent_alpha" 2 0 0.08 0 0 100 1 1 1 1)].

End ReputationSpec.

Module ScalingExamples.
Import AutoScalingManager.

(** A sampler standing for [random.sample] in the examples: the first
    [k] items. *)
Definition first_k (l : list Soul.Capability) (k : nat)
  : list Soul.Capability := firstn k l.

(** A manager without children that inherits the best capabilities. *)
Definition fresh_manager : t := mkManager "openclaw_main_agent" [] "best".


End ScalingExamples.

Module BackupExamples.
Import IpfsStorage.

Definition quote : string := String (ascii_of_nat 34) EmptyString.

(** [sep.join(parts)] *)
Fixpoint join (sep : string) (parts : list string) : string :=
  match parts with
  | [] => EmptyString
  | [p] => p
  | p :: rest => (p ++ sep ++ join sep rest)%string
  end.

(** A compact rendering of a document, numbers as fractions; it stands
    for [json.dumps] in the examples, whatever the indentation and the
    key order asked for. *)
Fixpoint render (v : json) : string :=
  match v with
  | JNull => "null"
  | JBool true => "true"
  | JBool false => "false"
  | JNum q => (Py.str (Qnum q) ++ "/" ++ Py.str (Zpos (Qden q)))%string
  | JStr s => (quote ++ s ++ quote)%string
  | JList l => ("[" ++ join "," (map render l) ++ "]")%string
  | JDict d =>
      ("{"
       ++ join ","
            (map (fun kv => (quote ++ fst kv ++ quote ++ ":"
                             ++ render (snd kv))%string) d)
       ++ "}")%string
  end.

(** The soul of the demonstration in [main]. *)
Definition demo_soul : list (string * json) :=
  [("format", JStr "soul/v1");
   ("id", JStr "openclaw_test_agent");
   ("name", JStr "TestAgent");
   ("purpose", JStr "Test IPFS backup system");
   ("capabilities",
    JList [JDict [("name", JStr "backup"); ("level", JStr "expert")];
           JDict [("name", JStr "recovery"); ("level", JStr "intermediate")]]);
   ("total_lifetime_earnings", JNum 0.05)].

(** A decoder for the examples: it knows the renderings of the empty
    soul and of the demonstration soul. *)
Definition decode (text : string) : option json :=
  find (fun v => String.eqb (render v) text) [JDict []; JDict demo_soul].

(** A digest for the examples: the length of the text and the text. *)
Definition digest (text : string) : string :=
  (Py.str (Z.of_nat (String.length text)) ++ ":" ++ text)%string.

(** A world for the examples, with no local node, no Pinata account and
    no gateway within reach. *)
Definition example_world : World :=
  mkWorld digest (fun _ _ => render) decode (fun _ => NotInstalled)
    (fun _ => None) (fun _ => None).

(** A manager in simulation mode with an empty cache and no backup. *)
Definition fresh_manager : OnChainSoulManager :=
  mkOnChainSoulManager "test_agent" (mkIPFSStorage false []) 3600 0 None [].

End BackupExamples.

Module MutualAid.
Import AgentCoordinationNetwork.

(** The test of the [helpers] comprehension. *)
Definition can_help (h : AgentProfile) : bool :=
  offers_help h && Py.in_list (tier h) ["NORMAL"; "THRIVING"].

(** A helper that can be matched: it passes the test of [helpers] and
    holds more than the minimum balance. *)
Definition eligible (h : AgentProfile) : bool :=
  can_help h && Py.gtb (balance h) 0.01.

(** The eligible helpers, in registration order. *)
Definition eligible_helpers (net : Network) : list AgentProfile :=
  filter eligible (Dict.values (agents net)).


(** The offer message a match of [h] with [need] sends, as stored. *)
Definition offer_message (now : Q) (h need : AgentProfile)
  : CoordinationMessage :=
  mkCoordinationMessage
    ("offer_" ++ Py.str (Py.int now) ++ "_" ++ agent_id h)%string
    (agent_id h) (agent_id need) "offer"
    (mkContent "funding" (mkOffer 0.01 "Mutual aid funding")) now "".

(** The message log after sending [new], one message at a time. *)
Definition delivered (msgs new : list CoordinationMessage)
  : list CoordinationMessage :=
  fold_left (fun ms m => Py.last_n 1000 (ms ++ [m])) new msgs.


(** The registry is a dictionary keyed by [agent_id], as
    [register_agent] builds it, and the reputation of its eligible
    helpers is at most 100. *)
Definition registry_ok (net : Network) : Prop :=
  Dict.wf (agents net)
  /\ (forall k p, In (k, p) (agents net) -> agent_id p = k)
  /\ (forall p, In p (eligible_helpers net) -> reputation p <= 100).

(** The scenario of the mutual aid round: one needy agent and two
    eligible helpers of reputations 40 and 70. *)
Definition gamma : AgentProfile :=
  mkAgentProfile "agent_gamma" "QmGamma" ["coding"] "CRITICAL" 0.0005 40 0
    true false true.

Definition beta : AgentProfile :=
  mkAgentProfile "agent_beta" "QmBeta" ["design"; "testing"] "NORMAL" 0.1 40
    0 true true false.

Definition alpha : AgentProfile :=
  mkAgentProfile "agent_alpha" "QmAlpha" ["coding"; "debugging"] "THRIVING"
    0.5 70 0 true true false.

Definition scenario_network : Network :=
  mkNetwork
    [("agent_gamma", gamma); ("agent_beta", beta); ("agent_alpha", alpha)]
    [] [].

End MutualAid.

(** ** Further methods of agent_coordination.py *)

Module NetworkOps.
Import AgentCoordinationNetwork.

(** [sum(l)] on floats: the items are added from the left, from 0. *)
Definition sum (l : list Q) : Q := fold_left Qplus l 0.

(** One keyword argument of [update_agent_status]: an attribute of
    [AgentProfile] with a value of its type, or a keyword that names no
    attribute. *)
Inductive Keyword : Type :=
| kw_agent_id (v : string)
| kw_soul_cid (v : string)
| kw_capabilities (v : list string)
| kw_tier (v : string)
| kw_balance (v : Q)
| kw_reputation (v : Q)
| kw_last_seen (v : Q)
| kw_is_active (v : bool)
| kw_offers_help (v : bool)
| kw_seeking_help (v : bool)
| kw_other (key : string).

(** [setattr(agent, key, value)] when [hasattr(agent, key)]. *)
Definition set_attribute (a : AgentProfile) (kw : Keyword) : AgentProfile :=
  match kw with
  | kw_agent_id v =>
      mkAgentProfile v (soul_cid a) (capabilities a) (tier a) (balance a)
        (reputation a) (last_seen a) (is_active a) (offers_help a)
        (seeking_help a)
  | kw_soul_cid v =>
      mkAgentProfile (agent_id a) v (capabilities a) (tier a) (balance a)
        (reputation a) (last_seen a) (is_active a) (offers_help a)
        (seeking_help a)
  | kw_capabilities v =>
      mkAgentProfile (agent_id a) (soul_cid a) v (tier a) (balance a)
        (reputation a) (last_seen a) (is_active a) (offers_help a)
        (seeking_help a)
  | kw_tier v =>
      mkAgentProfile (agent_id a) (soul_cid a) (capabilities a) v (balance a)
        (reputation a) (last_seen a) (is_active a) (offers_help a)
        (seeking_help a)
  | kw_balance v =>
      mkAgentProfile (agent_id a) (soul_cid a) (capabilities a) (tier a) v
        (reputation a) (last_seen a) (is_active a) (offers_help a)
        (seeking_help a)
  | kw_reputation v => set_reputation a v
  | kw_last_seen v => set_last_seen a v
  | kw_is_active v =>
      mkAgentProfile (agent_id a) (soul_cid a) (capabilities a) (tier a)
        (balance a) (reputation a) (last_seen a) v (offers_help a)
        (seeking_help a)
  | kw_offers_help v =>
      mkAgentProfile (agent_id a) (soul_cid a) (capabilities a) (tier a)
        (balance a) (reputation a) (last_seen a) (is_active a) v
        (seeking_help a)
  | kw_seeking_help v =>
      mkAgentProfile (agent_id a) (soul_cid a) (capabilities a) (tier a)
        (balance a) (reputation a) (last_seen a) (is_active a)
        (offers_help a) v
  | kw_other _ => a
  end.

(** [update_agent_status]: the object stored under the key is updated
    in place, keyword by keyword, and stamped. *)
Definition update_agent_status (net : Network) (id : string)
  (kwargs : list Keyword) (now : Q) : Network * bool :=
  match Dict.get id (agents net) with
  | None => (net, false)
  | Some agent =>
      let agent := fold_left set_attribute kwargs agent in
      (with_agents net (Dict.set id (set_last_seen agent now) (agents net)),
       true)
  end.

(** The dictionary [get_network_stats] returns. *)
Record Stats : Type := mkStats {
  total_agents : nat;
  active_agents : nat;
  tier_distribution : Dict.t nat;
  total_messages : nat;
  resource_pools : nat;
  total_pooled_eth : Q;
  avg_reputation : Q
}.



(** A call on the network. *)
Inductive Call : Type :=
| Register (profile : AgentProfile) (now : Q)
| Send (message : CoordinationMessage) (now : Q)
| OfferHelp (agent target offer_ty : string) (off : Offer) (now : Q)
| CreatePool (pid nm creator : string) (initial now : Q)
| Contribute (pid agent : string) (amount : Q)
| RequestLoan (pid agent : string) (amount : Q) (purpose : string) (now : Q)
| MutualAidRound (now : Q).

(** The network after one call. *)
Definition run_call (net : Network) (c : Call) : Network :=
  match c with
  | Register profile now => fst (register_agent net profile now)
  | Send message now => fst (send_message net message now)
  | OfferHelp agent target ty off now =>
      fst (offer_help net agent target ty off now)
  | CreatePool pid nm creator initial now =>
      fst (create_resource_pool net pid nm creator initial now)
  | Contribute pid agent amount =>
      fst (contribute_to_pool net pid agent amount)
  | RequestLoan pid agent amount purpose now =>
      fst (fst (request_loan net pid agent amount purpose now))
  | MutualAidRound now => fst (run_mutual_aid_round net now)
  end.

(** The network after a sequence of calls, first call first. *)
Definition run_calls (net : Network) (calls : list Call) : Network :=
  fold_left run_call calls net.

(** Profiles are registered with a reputation of at most 100. *)
Definition registers_in_range (c : Call) : Prop :=
  match c with
  | Register profile _ => reputation profile <= 100
  | _ => True
  end.






(** The calls of the demonstration in [main], after registration. *)
Definition demo_calls : list Call :=
  [Register MutualAid.alpha 1; Register MutualAid.beta 2;
   Register MutualAid.gamma 3;
   CreatePool "emergency_fund" "Emergency Fund" "agent_alpha" 0.1 4;
   Contribute "emergency_fund" "agent_beta" 0.05;
   MutualAidRound 5;
   RequestLoan "emergency_fund" "agent_gamma" 0.02 "Survival funding" 6].

End NetworkOps.

(** ** Further methods of spending_guardrails.py, and safe_operations.py *)

Module GuardrailOps.
Import SpendingGuardrails.

(** Truthiness of an optional float argument: [None] and 0 are falsy. *)
Definition truthy_float (x : option Q) : bool :=
  match x with
  | Some v => negb (Qeq_bool v 0)
  | None => false
  end.

(** [set_limits] *)
Definition set_limits (g : t) (daily weekly : option Q) : t :=
  let c := config g in
  let c :=
    if truthy_float daily
    then mkConfig daily (weekly_limit c) (blocked_recipients c)
           (config_emergency_stop c)
    else c in
  let c :=
    if truthy_float weekly
    then mkConfig (daily_limit c) weekly (blocked_recipients c)
           (config_emergency_stop c)
    else c in
  mkGuardrails (cls g) c (history g) (emergency_stop g).

(** [emergency_stop_toggle] *)
Definition emergency_stop_toggle (g : t) (active : bool) : t :=
  mkGuardrails (cls g)
    (mkConfig (daily_limit (config g)) (weekly_limit (config g))
       (blocked_recipients (config g)) (Some active))
    (history g) active.

(** [SafeOperations.safe_transfer], on the guardrails of the object;
    [None] stands for a [KeyError] of [record_spending]. *)
Definition safe_transfer (g : t) (to_address : string) (amount : Q)
  (purpose : string) (now : Q) : option (t * bool) :=
  let (g, check) := can_spend g amount (Some to_address) purpose now in
  if negb (allowed check) then Some (g, false)
  else if requires_approval check
          && negb (request_approval (approval_prompt check))
  then Some (g, false)
  else
    match record_spending g amount to_address purpose None now with
    | Some g' => Some (g', true)
    | None => None
    end.

(** The guardrails of the examples with the emergency stop set. *)
Definition stopped : t := emergency_stop_toggle Examples.guarded true.

End GuardrailOps.

(** ** Sorting and slicing, as Python does them *)

Module PySort.

(** Insertion into a list sorted by decreasing key, before the first
    item whose key is not larger. *)
Fixpoint insert_desc {A : Type} (key : A -> Q) (x : A) (l : list A) : list A :=
  match l with
  | [] => [x]
  | y :: l' =>
      if Py.ltb (key x) (key y) then y :: insert_desc key x l' else x :: l
  end.

(** [sorted(l, key=key, reverse=True)]: largest key first, items of equal
    key in their original order. *)
Definition sorted_desc {A : Type} (key : A -> Q) (l : list A) : list A :=
  fold_right (insert_desc key) [] l.

(** [l[:limit]]: the first [limit] items, or all but the last [-limit]
    when [limit] is negative. *)
Definition up_to {A : Type} (limit : Z) (l : list A) : list A :=
  if (0 <=? limit)%Z then firstn (Z.to_nat limit) l
  else firstn (List.length l - Z.to_nat (- limit)) l.

End PySort.

(** ** Further methods of reputation_engine.py *)

Module ReputationOps.
Import ReputationEngine.

(** One keyword argument of [update_performance]: a counter of
    [PerformanceMetrics] with the amount to add, or a keyword that names
    no attribute. *)
Inductive Increment : Type :=
| add_tasks_completed (n : Z)
| add_tasks_failed (n : Z)
| add_total_earnings (v : Q)
| add_total_spent (v : Q)
| add_avg_task_value (v : Q)
| add_uptime_hours (v : Q)
| add_backups_created (n : Z)
| add_souls_traded (n : Z)
| add_clones_created (n : Z)
| add_children_survived (n : Z)
| add_other (key : string).

(** [setattr(perf, key, getattr(perf, key) + value)] when
    [hasattr(perf, key)]. *)
Definition add_increment (p : PerformanceMetrics) (i : Increment)
  : PerformanceMetrics :=
  match i with
  | add_tasks_completed n =>
      mkPerformanceMetrics (agent_id p) (tasks_completed p + n)
        (tasks_failed p) (total_earnings p) (total_spent p)
        (avg_task_value p) (uptime_hours p) (backups_created p)
        (souls_traded p) (clones_created p) (children_survived p)
  | add_tasks_failed n =>
      mkPerformanceMetrics (agent_id p) (tasks_completed p)
        (tasks_failed p + n) (total_earnings p) (total_spent p)
        (avg_task_value p) (uptime_hours p) (backups_created p)
        (souls_traded p) (clones_created p) (children_survived p)
  | add_total_earnings v =>
      mkPerformanceMetrics (agent_id p) (tasks_completed p)
        (tasks_failed p) (total_earnings p + v) (total_spent p)
        (avg_task_value p) (uptime_hours p) (backups_created p)
        (souls_traded p) (clones_created p) (children_survived p)
  | add_total_spent v =>
      mkPerformanceMetrics (agent_id p) (tasks_completed p)
        (tasks_failed p) (total_earnings p) (total_spent p + v)
        (avg_task_value p) (uptime_hours p) (backups_created p)
        (souls_traded p) (clones_created p) (children_survived p)
  | add_avg_task_value v =>
      mkPerformanceMetrics (agent_id p) (tasks_completed p)
        (tasks_failed p) (total_earnings p) (total_spent p)
        (avg_task_value p + v) (uptime_hours p) (backups_created p)
        (souls_traded p) (clones_created p) (children_survived p)
  | add_uptime_hours v =>
      mkPerformanceMetrics (agent_id p) (tasks_completed p)
        (tasks_failed p) (total_earnings p) (total_spent p)
        (avg_task_value p) (uptime_hours p + v) (backups_created p)
        (souls_traded p) (clones_created p) (children_survived p)
  | add_backups_created n =>
      mkPerformanceMetrics (agent_id p) (tasks_completed p)
        (tasks_failed p) (total_earnings p) (total_spent p)
        (avg_task_value p) (uptime_hours p) (backups_created p + n)
        (souls_traded p) (clones_created p) (children_survived p)
  | add_souls_traded n =>
      mkPerformanceMetrics (agent_id p) (tasks_completed p)
        (tasks_failed p) (total_earnings p) (total_spent p)
        (avg_task_value p) (uptime_hours p) (backups_created p)
        (souls_traded p + n) (clones_created p) (children_survived p)
  | add_clones_created n =>
      mkPerformanceMetrics (agent_id p) (tasks_completed p)
        (tasks_failed p) (total_earnings p) (total_spent p)
        (avg_task_value p) (uptime_hours p) (backups_created p)
        (souls_traded p) (clones_created p + n) (children_survived p)
  | add_children_survived n =>
      mkPerformanceMetrics (agent_id p) (tasks_completed p)
        (tasks_failed p) (total_earnings p) (total_spent p)
        (avg_task_value p) (uptime_hours p) (backups_created p)
        (souls_traded p) (clones_created p) (children_survived p + n)
  | add_other _ => p
  end.

(** [update_performance]: the record of the agent (a fresh one when the
    engine holds none) is updated keyword by keyword, then the
    reputation is recalculated. *)
Definition update_performance (e : t) (id : string)
  (kwargs : list Increment) (now : Q) : t :=
  let perf :=
    match Dict.get id (performance e) with
    | Some p => p
    | None => default_metrics id
    end in
  let perf := fold_left add_increment kwargs perf in
  let e := mkEngine (reputations e) (Dict.set id perf (performance e)) in
  fst (calculate_reputation e id now).

(** [record_task_completion] *)
Definition record_task_completion (e : t) (id : string) (value : Q)
  (success : bool) (now : Q) : t :=
  if success
  then update_performance e id
         [add_tasks_completed 1; add_total_earnings value] now
  else update_performance e id [add_tasks_failed 1] now.

(** [record_trade] *)
Definition record_trade (e : t) (id : string) (amount : Q)
  (is_seller : bool) (now : Q) : t :=
  let e := update_performance e id [add_souls_traded 1] now in
  if is_seller
  then update_performance e id [add_total_earnings amount] now
  else update_performance e id [add_total_spent amount] now.

(** [record_clone] *)
Definition record_clone (e : t) (id : string) (child_survived : bool)
  (now : Q) : t :=
  let e := update_performance e id [add_clones_created 1] now in
  if child_survived
  then update_performance e id [add_children_survived 1] now
  else e.

(** [record_backup] *)
Definition record_backup (e : t) (id : string) (now : Q) : t :=
  update_performance e id [add_backups_created 1] now.

(** [get_top_agents] *)
Definition get_top_agents (e : t) (limit : Z) : list ReputationScore :=
  PySort.up_to limit
    (PySort.sorted_desc overall_score (Dict.values (reputations e))).

(** [round(x, 4)] *)
Definition round4 (x : Q) : Q :=
  inject_Z (round_half_even (x * 10000)) / 10000.

(** [sum(l)] on floats and on integers. *)
Definition sum (l : list Q) : Q := fold_left Qplus l 0.
Definition sumZ (l : list Z) : Z := fold_left Z.add l 0%Z.

Record TrustDistribution : Type := mkTrustDistribution {
  trusted : nat;
  established : nat;
  new : nat;
  untrusted : nat
}.

(** The dictionary [get_network_analytics] returns for an engine that
    tracks at least one agent. *)
Record Analytics : Type := mkAnalytics {
  total_agents : nat;
  average_reputation : Q;
  total_tasks_completed : Z;
  total_earnings_eth : Q;
  total_clones : Z;
  trust_distribution : TrustDistribution;
  top_agent : option string
}.

(** [get_network_analytics]: [None] stands for the dictionary that
    holds [total_agents = 0] and nothing else. *)
Definition get_network_analytics (e : t) : option Analytics :=
  let reps := Dict.values (reputations e) in
  let perfs := Dict.values (performance e) in
  let n := List.length (reputations e) in
  if (n =? 0)%nat then None
  else
    let avg := sum (map overall_score reps) / inject_Z (Z.of_nat n) in
    Some
      (mkAnalytics n (round2 avg)
         (sumZ (map tasks_completed perfs))
         (round4 (sum (map total_earnings perfs)))
         (sumZ (map clones_created perfs))
         (mkTrustDistribution
            (List.length
               (filter (fun r => Qle_bool 80 (overall_score r)) reps))
            (List.length
               (filter (fun r => Qle_bool 60 (overall_score r)
                                 && Py.ltb (overall_score r) 80) reps))
            (List.length
               (filter (fun r => Qle_bool 40 (overall_score r)
                                 && Py.ltb (overall_score r) 60) reps))
            (List.length
               (filter (fun r => Py.ltb (overall_score r) 40) reps)))
         (match get_top_agents e 1 with
          | r :: _ => Some (rep_agent_id r)
          | [] => None
          end)).

(** What the event recorders record. *)
Inductive Event : Type :=
| TaskCompletion (id : string) (value : Q) (success : bool)
| Trade (id : string) (amount : Q) (is_seller : bool)
| Clone (id : string) (child_survived : bool)
| Backup (id : string)
| Uptime (id : string) (hours : Q).

(** The engine after one event, recorded at the time [now]. *)
Definition record (e : t) (ev : Event * Q) : t :=
  match ev with
  | (TaskCompletion id value success, now) =>
      record_task_completion e id value success now
  | (Trade id amount is_seller, now) => record_trade e id amount is_seller now
  | (Clone id child_survived, now) => record_clone e id child_survived now
  | (Backup id, now) => record_backup e id now
  | (Uptime id hours, now) =>
      update_performance e id [add_uptime_hours hours] now
  end.

(** The agent an event is about. *)
Definition subject (ev : Event) : string :=
  match ev with
  | TaskCompletion id _ _ | Trade id _ _ | Clone id _ | Backup id
  | Uptime id _ => id
  end.

(** The amounts of an event are not negative. *)
Definition nonneg_event (ev : Event * Q) : Prop :=
  match fst ev with
  | TaskCompletion _ value _ => 0 <= value
  | Trade _ amount _ => 0 <= amount
  | Uptime _ hours => 0 <= hours
  | _ => True
  end.

(** An engine that tracks no agent. *)
Definition empty_engine : t := mkEngine [] [].

(** The events of the demonstration in [main]. *)
Definition demo_events : list (Event * Q) :=
  [(TaskCompletion "agent_alpha" 0.01 true, 1);
   (TaskCompletion "agent_alpha" 0.02 true, 2);
   (Trade "agent_alpha" 0.05 true, 3);
   (Clone "agent_alpha" true, 4);
   (Backup "agent_alpha", 5);
   (Uptime "agent_alpha" 100, 6);
   (TaskCompletion "agent_gamma" 0.01 true, 7);
   (TaskCompletion "agent_gamma" 0.00 false, 8)].

End ReputationOps.

(** ** Further methods of auto_scaling.py *)

Module ScalingOps.
Import AutoScalingManager.


(** Of [self.config] the keys [should_spawn] and [auto_scale] read;
    [None] for a key the configuration lacks. *)
Record Config : Type := mkConfig {
  auto_spawn : option bool;
  max_children : option Z
}.



Definition set_status (c : ChildAgent) (s : string) : ChildAgent :=
  mkChildAgent (child_id c) (parent_id c) (genesis_prompt c)
    (inherited_capabilities c) (initial_funding c) (birth_time c)
    (soul_cid c) (token_id c) s (earnings c).

(** [provision_child]: the stored child is marked alive in place. *)
Definition provision_child (m : t) (id : string) : t * bool :=
  match Dict.get id (children m) with
  | None => (m, false)
  | Some child =>
      (mkManager (manager_parent_id m)
         (Dict.set id (set_status child "alive") (children m))
         (inheritance_mode m),
       true)
  end.

(** The dictionary [monitor_children] returns. *)
Record Stats : Type := mkStats {
  total : nat;
  alive : nat;
  dead : nat;
  gestating : nat;
  total_earnings : Q;
  concerns : list string
}.

(** One turn of the loop of [monitor_children]. *)
Definition monitor_child (stats : Stats) (child : ChildAgent) : Stats :=
  if String.eqb (status child) "alive" then
    mkStats (total stats) (alive stats + 1) (dead stats) (gestating stats)
      (total_earnings stats + earnings child)
      (if Py.ltb (earnings child) (initial_funding child * 0.5)
       then concerns stats ++ [(child_id child ++ " earnings low")%string]
       else concerns stats)
  else if String.eqb (status child) "dead" then
    mkStats (total stats) (alive stats) (dead stats + 1) (gestating stats)
      (total_earnings stats) (concerns stats)
  else if String.eqb (status child) "gestating" then
    mkStats (total stats) (alive stats) (dead stats) (gestating stats + 1)
      (total_earnings stats) (concerns stats)
  else stats.

(** [monitor_children] *)
Definition monitor_children (m : t) : Stats :=
  fold_left monitor_child (Dict.values (children m))
    (mkStats (List.length (children m)) 0 0 0 0 []).

Section Scaling.

Variable sample : list Soul.Capability -> nat -> list Soul.Capability.



End Scaling.

End ScalingOps.

(** ** Further methods of ipfs_storage.py *)

Module BackupOps.
Import IpfsStorage.

Section Lib.

Variable w : World.

(** [verify_content] *)
Definition verify_content (s : IPFSStorage) (c expected_hash : string)
  : IPFSStorage * result bool :=
  match retrieve_from_ipfs w s c with
  | (s, Raised) => (s, Raised)
  | (s, Ok None) => (s, Ok false)
  | (s, Ok (Some data)) =>
      if truthy data
      then (s, Ok (String.eqb (content_hash w data) expected_hash))
      else (s, Ok false)
  end.

(** [auto_backup] *)
Definition auto_backup (m : OnChainSoulManager)
  (soul_data : list (string * json)) (now : Q)
  : OnChainSoulManager * result (option string) :=
  if Qle_bool (backup_interval m) (now - last_backup m) then
    match backup_soul w m soul_data "auto" now with
    | (m, Ok c) => (m, Ok (Some c))
    | (m, Raised) => (m, Raised)
    end
  else (m, Ok None).

(** [get_backup_history] *)
Definition get_backup_history (m : OnChainSoulManager) : list BackupRecord :=
  backup_history m.

(** [verify_latest_backup] *)
Definition verify_latest_backup (m : OnChainSoulManager)
  (soul_data : list (string * json)) : bool :=
  match last_record (backup_history m) with
  | None => false
  | Some latest =>
      String.eqb (hash latest) (content_hash w (JDict soul_data))
  end.

End Lib.

End BackupOps.

(** ** Further methods of soul_survival.py *)

Module SurvivalOps.

(** One entry of the [capabilities] list: a dictionary with a [name];
    the other keys may be missing. *)
Record Capability : Type := mkCapability {
  cap_name : string;
  cap_level : option string;
  cap_earnings : option Q;
  cap_uses : option Z
}.

(** The [marketplace] entry of a soul. *)
Record Marketplace : Type := mkMarketplace {
  listed_count : Z;
  sold_count : Z;
  purchased_count : Z;
  total_volume_eth : Q
}.

Record Purchase : Type := mkPurchase {
  purchase_agent_id : string;
  purchase_price : Q;
  purchase_time : string
}.

(** A soul with the keys of the soul [_load_soul] creates, as far as the
    methods below use them; [purchases] is missing until the first
    purchase. *)
Record t : Type := mkSoul {
  id : string;
  total_lifetime_earnings : Q;
  current_balance : Q;
  status : string;
  capabilities : list Capability;
  marketplace : Marketplace;
  purchases : option (list Purchase)
}.

(** The keys [get_balance] and [get_tier] read. *)
Definition view (soul : t) : Soul.t :=
  Soul.mkSoul (Some (current_balance soul))
    (Some (map (fun cap => Soul.mkCapability (cap_name cap) (cap_earnings cap))
               (capabilities soul)))
    None.

Definition get_balance (soul : t) : Q :=
  OpenClawSoulSurvival.get_balance (view soul).

Definition get_tier (soul : t) : string :=
  OpenClawSoulSurvival.get_tier (view soul).





(** A listing: the dictionary [list_soul] writes, or one read from the
    [listings] directory, where any key may be missing. *)
Record Listing : Type := mkListing {
  listing_agent_id : option string;
  listing_price : option Q;
  listing_value : option Q;
  listing_capabilities : option (list Capability);
  listing_reason : option string;
  listing_timestamp : option string
}.








End SurvivalOps.

Module SurvivalExamples.
Import SurvivalOps.


(** A listing another agent wrote with [list_soul]. *)
Definition offer : Listing :=
  mkListing (Some "agent_beta") (Some 0.02) (Some 0.025)
    (Some [mkCapability "trading" (Some "expert") (Some 0.05) (Some 7%Z);
           mkCapability "code_generation" (Some "expert") (Some 0.01)
             (Some 2%Z)])
    (Some "Critical balance") (Some "2026-01-01T00:00:00").

End SurvivalExamples.

(** * Properties *)

(** ** Comparisons and dictionaries *)

Lemma ltb_true_iff (a b : Q) : Py.ltb a b = true <-> a < b.
Proof.
  unfold Py.ltb. rewrite negb_true_iff.
  split; intro H.
  - apply Qnot_le_lt. intro Hle. apply Qle_bool_iff in Hle. congruence.
  - destruct (Qle_bool b a) eqn:E; [|reflexivity].
    apply Qle_bool_iff in E. lra.
Qed.

Lemma ltb_false_iff (a b : Q) : Py.ltb a b = false <-> b <= a.
Proof.
  unfold Py.ltb. rewrite negb_false_iff. apply Qle_bool_iff.
Qed.

Lemma py_min_le_l (a b : Q) : Py.min a b <= a.
Proof.
  unfold Py.min. destruct (Py.ltb b a) eqn:E.
  - apply ltb_true_iff in E. lra.
  - lra.
Qed.

Lemma py_min_le_r (a b : Q) : Py.min a b <= b.
Proof.
  unfold Py.min. destruct (Py.ltb b a) eqn:E.
  - lra.
  - apply ltb_false_iff in E. lra.
Qed.

Lemma py_min_glb (a b c : Q) : c <= a -> c <= b -> c <= Py.min a b.
Proof.
  intros Ha Hb. unfold Py.min. destruct (Py.ltb b a); assumption.
Qed.

Lemma dict_get_set_same {V : Type} (k : string) (v : V) (d : Dict.t V) :
  Dict.get k (Dict.set k v d) = Some v.
Proof.
  induction d as [|[k' v'] d IH]; simpl.
  - now rewrite String.eqb_refl.
  - destruct (String.eqb k k') eqn:E; simpl; rewrite ?E, ?String.eqb_refl; auto.
Qed.

Lemma dict_get_set_other {V : Type} (k k' : string) (v : V) (d : Dict.t V) :
  k <> k' -> Dict.get k (Dict.set k' v d) = Dict.get k d.
Proof.
  intro Hne. induction d as [|[k0 v0] d IH]; simpl.
  - apply String.eqb_neq in Hne. now rewrite Hne.
  - destruct (String.eqb k' k0) eqn:E; simpl.
    + apply String.eqb_eq in E. subst k0.
      apply String.eqb_neq in Hne. now rewrite Hne.
    + destruct (String.eqb k k0); auto.
Qed.

(** ** The pool ledger *)

Section PoolProperties.
Import AgentCoordinationNetwork PoolLedger.

Lemma solvent_agents (net : Network) (a : Dict.t AgentProfile) (pid : string) :
  solvent net pid -> solvent (with_agents net a) pid.
Proof. intros [p Hp]. exists p. exact Hp. Qed.

Lemma solvent_set_other (net : Network) (pid pid' : string) (p' : ResourcePool) :
  pid <> pid' ->
  solvent net pid ->
  solvent (with_pools net (Dict.set pid' p' (pools net))) pid.
Proof.
  intros Hne [p [Hget Hbal]]. exists p. split; [|exact Hbal].
  simpl. now rewrite dict_get_set_other.
Qed.

Lemma solvent_set_same (net : Network) (pid : string) (p' : ResourcePool) :
  0 <= total_balance p' ->
  solvent (with_pools net (Dict.set pid p' (pools net))) pid.
Proof.
  intro Hbal. exists p'. split; [|exact Hbal].
  simpl. apply dict_get_set_same.
Qed.

Lemma create_resource_pool_solvent
  (net : Network) (pid nm creator : string) (initial now : Q) :
  0 <= initial ->
  solvent (fst (create_resource_pool net pid nm creator initial now)) pid.
Proof. intro H. unfold create_resource_pool; simpl. now apply solvent_set_same. Qed.

Lemma contribute_to_pool_solvent
  (net : Network) (pid pid' agent : string) (amount : Q) :
  0 <= amount ->
  solvent net pid ->
  solvent (fst (contribute_to_pool net pid' agent amount)) pid.
Proof.
  intros Hamt Hsol. unfold contribute_to_pool.
  destruct (Dict.get pid' (pools net)) as [pool|] eqn:Hpool; [|exact Hsol].
  assert (Hsol' : solvent
            (with_pools net
               (Dict.set pid'
                  (mkResourcePool (pool_id pool) (name pool)
                     (total_balance pool + amount)
                     (Dict.set agent
                        (match Dict.get agent (contributors pool) with
                         | Some c => c
                         | None => 0
                         end + amount) (contributors pool))
                     (loans pool) (created_at pool))
                  (pools net))) pid).
  { destruct (string_dec pid pid') as [->|Hne].
    - apply solvent_set_same. simpl.
      destruct Hsol as [p [Hget Hbal]].
      rewrite Hpool in Hget. injection Hget as <-. lra.
    - now apply solvent_set_other. }
  cbv zeta.
  match goal with
  | |- context [match ?x with Some _ => _ | None => _ end] =>
      destruct x
  end; simpl; [apply solvent_agents|]; exact Hsol'.
Qed.

Lemma request_loan_solvent
  (net : Network) (pid pid' agent purpose : string) (amount now : Q) :
  solvent net pid ->
  solvent (fst (fst (request_loan net pid' agent amount purpose now))) pid.
Proof.
  intro Hsol. unfold request_loan.
  destruct (Dict.get pid' (pools net)) as [pool|] eqn:Hpool; [|exact Hsol].
  destruct (match Dict.get agent (agents net) with
            | Some a => Py.ltb (reputation a) 20
            | None => false
            end); [exact Hsol|].
  destruct (Py.ltb (total_balance pool) amount) eqn:Hlt; [exact Hsol|].
  apply ltb_false_iff in Hlt. simpl.
  destruct (string_dec pid pid') as [->|Hne].
  - apply solvent_set_same. simpl. lra.
  - now apply solvent_set_other.
Qed.

Lemma run_calls_solvent (calls : list Call) :
  forall net pid,
    Forall nonneg_contribution calls ->
    solvent net pid ->
    solvent (run_calls net calls) pid.
Proof.
  induction calls as [|c calls IH]; intros net pid Hall Hsol; [exact Hsol|].
  inversion Hall as [|? ? Hc Hrest]; subst.
  apply IH; [exact Hrest|].
  destruct c as [pid' agent amount|pid' agent amount purpose now]; simpl in *.
  - now apply contribute_to_pool_solvent.
  - now apply request_loan_solvent.
Qed.

Lemma request_loan_granted
  (net net' : Network) (pid agent purpose : string) (amount now : Q)
  (loan : Loan) (out : list Printed) :
  request_loan net pid agent amount purpose now = (net', Some loan, out) ->
  exists pool,
    Dict.get pid (pools net) = Some pool
    /\ amount <= total_balance pool
    /\ Dict.get pid (pools net')
       = Some (mkResourcePool (pool_id pool) (name pool)
                 (total_balance pool - amount) (contributors pool)
                 (loans pool ++ [loan]) (created_at pool))
    /\ loan_amount loan = amount
    /\ repaid loan = false.
Proof.
  unfold request_loan.
  destruct (Dict.get pid (pools net)) as [pool|] eqn:Hpool; [|discriminate].
  destruct (match Dict.get agent (agents net) with
            | Some a => Py.ltb (reputation a) 20
            | None => false
            end); [discriminate|].
  destruct (Py.ltb (total_balance pool) amount) eqn:Hlt; [discriminate|].
  intro H. injection H as <- <- _.
  exists pool. apply ltb_false_iff in Hlt.
  repeat split; auto. simpl. apply dict_get_set_same.
Qed.

(** C1. Pool solvency.  From the network in which
    [create_resource_pool] has just created the pool [pid] with a
    non-negative initial contribution, after every sequence of
    [contribute_to_pool] calls with non-negative amounts and
    [request_loan] calls (on any pool, by any agent) the pool still
    exists with a non-negative [total_balance]; as every prefix of a
    sequence is a sequence, the balance is never negative on the way.
    And whenever [request_loan] returns a loan, the amount asked was at
    most the [total_balance] of the pool when it was asked, and the
    pool is debited by exactly that amount. *)
Theorem C1_pool_solvency :
  forall (net : Network) (pid nm creator : string) (initial now : Q)
         (calls : list Call),
    0 <= initial ->
    Forall nonneg_contribution calls ->
    solvent
      (run_calls (fst (create_resource_pool net pid nm creator initial now))
                 calls) pid
    /\ (forall net0 net1 pid' agent purpose amount now' loan out,
           request_loan net0 pid' agent amount purpose now'
           = (net1, Some loan, out) ->
           exists pool,
             Dict.get pid' (pools net0) = Some pool
             /\ amount <= total_balance pool
             /\ Dict.get pid' (pools net1)
                = Some (mkResourcePool (pool_id pool) (name pool)
                          (total_balance pool - amount) (contributors pool)
                          (loans pool ++ [loan]) (created_at pool))).
Proof.
  intros net pid nm creator initial now calls Hinit Hcalls. split.
  - apply run_calls_solvent; [exact Hcalls|].
    now apply create_resource_pool_solvent.
  - intros net0 net1 pid' agent purpose amount now' loan out Hreq.
    destruct (request_loan_granted _ _ _ _ _ _ _ _ _ Hreq)
      as [pool [H1 [H2 [H3 _]]]].
    exists pool. auto.
Qed.

Lemma C1_pool_solvency_witness :
  solvent
    (run_calls
       (fst (create_resource_pool empty_network "emergency_fund"
               "Emergency Fund" "agent_alpha" 0.1 1000))
       demo_calls) "emergency_fund"
  /\ (forall net0 net1 pid' agent purpose amount now' loan out,
         request_loan net0 pid' agent amount purpose now'
         = (net1, Some loan, out) ->
         exists pool,
           Dict.get pid' (pools net0) = Some pool
           /\ amount <= total_balance pool
           /\ Dict.get pid' (pools net1)
              = Some (mkResourcePool (pool_id pool) (name pool)
                        (total_balance pool - amount) (contributors pool)
                        (loans pool ++ [loan]) (created_at pool))).
Proof.
  apply (C1_pool_solvency empty_network "emergency_fund" "Emergency Fund"
           "agent_alpha" 0.1 1000 demo_calls).
  - lra.
  - repeat constructor. simpl. lra.
Defined.

End PoolProperties.

Section LoanGate.
Import AgentCoordinationNetwork PoolLedger.

(** C2. Loan reputation gate.  For a registered agent whose reputation
    is below 20, [request_loan] on an existing pool returns no loan
    whatever the amount and the balance of the pool; the line it prints
    is the one of the reputation check, also when the pool could not
    have paid, so that check comes first; and the network after the
    call is the network before it: the balance, the contributors and
    the loans of the pool are unchanged. *)
Theorem C2_loan_reputation_gate :
  forall (net : Network) (pid agent purpose : string) (amount now : Q)
         (pool : ResourcePool) (a : AgentProfile),
    Dict.get pid (pools net) = Some pool ->
    Dict.get agent (agents net) = Some a ->
    reputation a < 20 ->
    request_loan net pid agent amount purpose now
    = (net, None, [ReputationTooLow agent]).
Proof.
  intros net pid agent purpose amount now pool a Hpool Hagent Hrep.
  unfold request_loan. rewrite Hpool, Hagent.
  apply ltb_true_iff in Hrep. now rewrite Hrep.
Qed.

Lemma C2_loan_reputation_gate_witness :
  request_loan scenario_network "emergency_fund" "A" 0.05 "Survival" 1000
  = (scenario_network, None, [ReputationTooLow "A"]).
Proof.
  apply (C2_loan_reputation_gate scenario_network "emergency_fund" "A"
           "Survival" 0.05 1000 scenario_pool (scenario_agent "A" 15)).
  - reflexivity.
  - reflexivity.
  - simpl. lra.
Defined.

(** The second scenario of the gate: agent B of reputation 50 borrows
    0.05 from the pool holding 0.1; the pool is left with 0.05 and one
    loan that is not repaid. *)
Example scenario_loan_granted :
  exists net loan out,
    request_loan scenario_network "emergency_fund" "B" 0.05 "Survival" 1000
    = (net, Some loan, out)
    /\ repaid loan = false
    /\ exists pool,
        Dict.get "emergency_fund" (pools net) = Some pool
        /\ total_balance pool == 0.05
        /\ loans pool = [loan].
Proof.
  do 3 eexists. split; [reflexivity|]. split; [reflexivity|].
  eexists. split; [reflexivity|]. split; [reflexivity|reflexivity].
Qed.

(** C10. The gate applies to registered agents only.  For an agent
    that the registry does not hold, [request_loan] on an existing pool
    looks at no reputation: it grants the loan whenever the amount is
    at most the balance of the pool, debiting the pool by the amount
    and appending the loan, not repaid, to its loans. *)
Theorem C10_unregistered_agent_borrows :
  forall (net : Network) (pid agent purpose : string) (amount now : Q)
         (pool : ResourcePool),
    Dict.get pid (pools net) = Some pool ->
    Dict.get agent (agents net) = None ->
    amount <= total_balance pool ->
    let loan :=
      mkLoan ("loan_" ++ Py.str (Py.int now) ++ "_" ++ agent)%string
             agent amount purpose now false in
    request_loan net pid agent amount purpose now
    = (with_pools net
         (Dict.set pid
            (mkResourcePool (pool_id pool) (name pool)
               (total_balance pool - amount) (contributors pool)
               (loans pool ++ [loan]) (created_at pool))
            (pools net)),
       Some loan,
       [LoanGranted agent amount purpose]).
Proof.
  intros net pid agent purpose amount now pool Hpool Hagent Hamt loan.
  unfold request_loan. rewrite Hpool, Hagent.
  apply ltb_false_iff in Hamt. now rewrite Hamt.
Qed.

Lemma C10_unregistered_agent_borrows_witness :
  request_loan scenario_network "emergency_fund" "stranger" 0.1 "Any" 1000
  = (with_pools scenario_network
       (Dict.set "emergency_fund"
          (mkResourcePool "emergency_fund" "Emergency Fund" (0.1 - 0.1)
             [("agent_alpha", 0.1)]
             [mkLoan "loan_1000_stranger" "stranger" 0.1 "Any" 1000 false]
             0)
          (pools scenario_network)),
     Some (mkLoan "loan_1000_stranger" "stranger" 0.1 "Any" 1000 false),
     [LoanGranted "stranger" 0.1 "Any"]).
Proof.
  apply (C10_unregistered_agent_borrows scenario_network "emergency_fund"
           "stranger" "Any" 0.1 1000 scenario_pool).
  - reflexivity.
  - reflexivity.
  - simpl. lra.
Defined.

End LoanGate.

(** ** Survival tiers *)

Section Tiers.

Lemma enhanced_get_tier_eq (soul : Soul.t) :
  EnhancedSoulSurvival.get_tier soul = OpenClawSoulSurvival.get_tier soul.
Proof. reflexivity. Qed.

(** C3. Tier classification.  [get_tier] is a function of the balance
    (0.0 when the soul has none), the same in both classes, and returns
    exactly the tier of the interval the balance lies in: below 0.001
    CRITICAL, from 0.001 up to 0.01 LOW, from 0.01 up to 0.1 NORMAL,
    from 0.1 on THRIVING.  The intervals are disjoint and cover every
    balance, so every balance gets exactly one tier, and a balance equal
    to a threshold gets the higher one. *)
Theorem C3_tier_classification :
  forall soul : Soul.t,
    let b := Soul.get_current_balance soul 0.0 in
    let tier := OpenClawSoulSurvival.get_tier soul in
    EnhancedSoulSurvival.get_tier soul = tier
    /\ ((b < 0.001 /\ tier = "CRITICAL")
        \/ (0.001 <= b /\ b < 0.01 /\ tier = "LOW")
        \/ (0.01 <= b /\ b < 0.1 /\ tier = "NORMAL")
        \/ (0.1 <= b /\ tier = "THRIVING"))
    /\ OpenClawSoulSurvival.get_tier (Examples.soul_with_balance 0.001) = "LOW"
    /\ OpenClawSoulSurvival.get_tier (Examples.soul_with_balance 0.01) = "NORMAL"
    /\ OpenClawSoulSurvival.get_tier (Examples.soul_with_balance 0.1)
       = "THRIVING".
Proof.
  intros soul b tier. split; [reflexivity|]. split.
  - subst tier. unfold OpenClawSoulSurvival.get_tier,
      OpenClawSoulSurvival.get_balance,
      OpenClawSoulSurvival.CRITICAL, OpenClawSoulSurvival.LOW,
      OpenClawSoulSurvival.NORMAL.
    fold b. cbv zeta.
    destruct (Py.ltb b 0.001) eqn:E1.
    { left. apply ltb_true_iff in E1. auto. }
    apply ltb_false_iff in E1.
    destruct (Py.ltb b 0.01) eqn:E2.
    { right; left. apply ltb_true_iff in E2. auto. }
    apply ltb_false_iff in E2.
    destruct (Py.ltb b 0.1) eqn:E3.
    { right; right; left. apply ltb_true_iff in E3. auto. }
    apply ltb_false_iff in E3.
    right; right; right. auto.
  - repeat split; reflexivity.
Qed.

(** An agent with balance 0.0005 is CRITICAL; after earning 0.02 it
    holds 0.0205 and is NORMAL. *)
Example scenario_tier_after_earning :
  EnhancedSoulSurvival.get_tier (Examples.soul_with_balance 0.0005) = "CRITICAL"
  /\ EnhancedSoulSurvival.get_tier (Examples.soul_with_balance (0.0005 + 0.02))
     = "NORMAL".
Proof. split; reflexivity. Qed.

End Tiers.

(** ** Spending guardrails *)

Section Guardrails.
Import SpendingGuardrails.

Lemma reset_keeps_settings (g : t) (now : Q) :
  cls (_reset_if_needed g now) = cls g
  /\ config (_reset_if_needed g now) = config g
  /\ emergency_stop (_reset_if_needed g now) = emergency_stop g.
Proof.
  unfold _reset_if_needed. cbv zeta.
  destruct (Py.gtb _ _); simpl; auto.
Qed.

Lemma reset_keeps_limit (g : t) (now : Q) :
  get_daily_limit (_reset_if_needed g now) = get_daily_limit g.
Proof.
  unfold get_daily_limit.
  destruct (reset_keeps_settings g now) as [-> [-> _]]. reflexivity.
Qed.

Lemma reset_keeps_blocked (g : t) (now : Q) (recipient : option string) :
  is_blocked (_reset_if_needed g now) recipient = is_blocked g recipient.
Proof.
  unfold is_blocked.
  destruct (reset_keeps_settings g now) as [_ [-> _]]. reflexivity.
Qed.




(** C5, as written, fails: [record_spending] called more than 24 hours
    after the last reset adds to the stale daily total and leaves
    [last_reset] alone; and [can_spend] called exactly 24 hours after
    the last reset resets nothing. *)
Lemma C5_counterexample_no_reset :
  (exists g',
      record_spending Examples.guarded 1 "shop" "tools" None 200000 = Some g'
      /\ daily_total (history g') = Some (3 + 1)
      /\ last_reset (history g') = Some 0)
  /\ fst (can_spend Examples.guarded 1 None "tools" 86400) = Examples.guarded.
Proof.
  split; [|reflexivity].
  eexists. split; [reflexivity|]. split; reflexivity.
Qed.

(** C5, amended.  When more than 24 hours (86400 seconds) have passed
    since the recorded [last_reset] (0 when none is recorded), the next
    [can_spend] first sets [daily_total] to 0 and [last_reset] to the
    time of the call, and decides on the reset totals; otherwise it
    leaves the object as it is.  [record_spending] never resets: it adds
    the amount to [daily_total] and keeps [last_reset].  The object
    changes only in these calls, so nothing is reset between them. *)
Theorem C5_lazy_daily_reset :
  forall (g : t) (amount : Q) (recipient : option string) (purpose : string)
         (now : Q),
    let last := match last_reset (history g) with Some r => r | None => 0 end in
    fst (can_spend g amount recipient purpose now) = _reset_if_needed g now
    /\ (86400 < now - last ->
        daily_total (history (_reset_if_needed g now)) = Some 0.0
        /\ last_reset (history (_reset_if_needed g now)) = Some now
        /\ snd (can_spend g amount recipient purpose now)
           = snd (can_spend (_reset_if_needed g now) amount recipient
                    purpose now))
    /\ (now - last <= 86400 -> _reset_if_needed g now = g)
    /\ (forall r p h g',
           record_spending g amount r p h now = Some g' ->
           last_reset (history g') = last_reset (history g)
           /\ exists d, daily_total (history g) = Some d
                        /\ daily_total (history g') = Some (d + amount)).
Proof.
  intros g amount recipient purpose now last.
  split; [|split; [|split]].
  - unfold can_spend. cbv zeta.
    repeat match goal with
           | |- context [if ?c then _ else _] => destruct c
           end; reflexivity.
  - intro Hlate.
    assert (E : Py.gtb (now - last) 86400 = true)
      by (unfold Py.gtb; now apply ltb_true_iff).
    assert (R : _reset_if_needed g now
                = with_history g
                    (mkHistory (transactions (history g)) (Some 0.0)
                       (weekly_total (history g)) (Some now))).
    { unfold _reset_if_needed. cbv zeta. fold last. now rewrite E. }
    split; [now rewrite R|]. split; [now rewrite R|].
    assert (I : _reset_if_needed (_reset_if_needed g now) now
                = _reset_if_needed g now).
    { rewrite R at 1. unfold _reset_if_needed at 1. cbv zeta. simpl.
      assert (E' : Py.gtb (now - now) 86400 = false)
        by (unfold Py.gtb; apply ltb_false_iff; lra).
      rewrite E'. now rewrite R. }
    unfold can_spend at 2. cbv zeta. rewrite I. reflexivity.
  - intro Hearly. unfold _reset_if_needed. cbv zeta. fold last.
    assert (E : Py.gtb (now - last) 86400 = false)
      by (unfold Py.gtb; now apply ltb_false_iff).
    now rewrite E.
  - intros r p h g'. unfold record_spending. cbv zeta.
    destruct (daily_total (history g)) as [d|]; [|discriminate].
    destruct (weekly_total (history g)) as [wk|]; [|discriminate].
    intro H. injection H as <-. simpl. split; [reflexivity|].
    exists d. auto.
Qed.

Lemma C5_lazy_daily_reset_witness :
  daily_total (history (fst (can_spend Examples.guarded 1 None "tools" 200000)))
  = Some 0.0.
Proof.
  destruct (C5_lazy_daily_reset Examples.guarded 1 None "tools" 200000)
    as [Hfst [Hlate _]].
  rewrite Hfst. apply Hlate. vm_compute. reflexivity.
Defined.

End Guardrails.

(** ** Reputation scores *)

Section Reputation.
Import ReputationEngine ReputationSpec.

Lemma round_half_even_lower (x : Q) (n : Z) :
  inject_Z n <= x -> (n <= round_half_even x)%Z.
Proof.
  intro H. apply Qfloor_resp_le in H. rewrite Qfloor_Z in H.
  unfold round_half_even. cbv zeta.
  repeat match goal with
         | |- context [if ?c then _ else _] => destruct c
         end; lia.
Qed.

Lemma round_half_even_upper (x : Q) (n : Z) :
  x <= inject_Z n -> (round_half_even x <= n)%Z.
Proof.
  intro H.
  assert (Hf : (Qfloor x <= n)%Z).
  { apply Qfloor_resp_le in H. now rewrite Qfloor_Z in H. }
  unfold round_half_even. cbv zeta.
  destruct (Py.ltb (x - inject_Z (Qfloor x)) (1 # 2)) eqn:E; [exact Hf|].
  apply ltb_false_iff in E.
  assert (Hlt : inject_Z (Qfloor x) < inject_Z n) by lra.
  rewrite <- Zlt_Qlt in Hlt.
  repeat match goal with
         | |- context [if ?c then _ else _] => destruct c
         end; lia.
Qed.

Lemma round2_bounds (x : Q) : 0 <= x -> x <= 100 -> 0 <= round2 x <= 100.
Proof.
  intros H0 H100. unfold round2.
  assert (L : (0 <= round_half_even (x * 100))%Z)
    by (apply round_half_even_lower; change (inject_Z 0) with 0; lra).
  assert (U : (round_half_even (x * 100) <= 10000)%Z)
    by (apply round_half_even_upper; change (inject_Z 10000) with 10000; lra).
  rewrite Zle_Qle in L, U.
  set (r := inject_Z (round_half_even (x * 100))) in *.
  setoid_replace (r / 100) with (r * (1 # 100)) by field.
  change (inject_Z 0) with 0 in L. change (inject_Z 10000) with 10000 in U.
  lra.
Qed.

Lemma completion_rate_bounds (c f : Z) :
  (0 <= c)%Z -> (0 <= f)%Z -> (0 < c + f)%Z ->
  0 <= inject_Z c / inject_Z (c + f) * 100 <= 100.
Proof.
  intros Hc Hf Hpos.
  assert (Hc' : 0 <= inject_Z c) by (rewrite Zle_Qle in Hc; exact Hc).
  assert (Ht : 0 < inject_Z (c + f)) by (rewrite Zlt_Qlt in Hpos; exact Hpos).
  assert (Hle : inject_Z c <= inject_Z (c + f))
    by (rewrite <- Zle_Qle; lia).
  assert (L : 0 <= inject_Z c / inject_Z (c + f)).
  { apply Qle_shift_div_l; [exact Ht|lra]. }
  assert (U : inject_Z c / inject_Z (c + f) <= 1).
  { apply Qle_shift_div_r; [exact Ht|lra]. }
  lra.
Qed.

Lemma overall_bounds (p : PerformanceMetrics) :
  nonneg_counters p ->
  let total_tasks := (tasks_completed p + tasks_failed p)%Z in
  let reliability :=
    if (0 <? total_tasks)%Z
    then inject_Z (tasks_completed p) / inject_Z total_tasks * 100
    else 50 in
  let quality := Py.min 100 (total_earnings p / 0.1 * 100) in
  let helpfulness :=
    Py.min 100
      (inject_Z (clones_created p * 10 + children_survived p * 5)) in
  let longevity := Py.min 100 (uptime_hours p / 10) in
  0 <= reliability * 0.3 + quality * 0.25 + 95 * 0.2
       + helpfulness * 0.15 + longevity * 0.1 <= 100.
Proof.
  intros (Hc & Hf & He & _ & Hu & _ & _ & Hcl & Hch).
  intros total_tasks reliability quality helpfulness longevity.
  assert (R : 0 <= reliability <= 100).
  { subst reliability total_tasks.
    destruct (0 <? tasks_completed p + tasks_failed p)%Z eqn:E.
    - apply Z.ltb_lt in E. now apply completion_rate_bounds.
    - lra. }
  assert (Qb : 0 <= quality <= 100).
  { subst quality. split; [|apply py_min_le_l].
    apply py_min_glb; [lra|].
    setoid_replace (total_earnings p / 0.1 * 100)
      with (total_earnings p * 1000) by field.
    lra. }
  assert (Hb : 0 <= helpfulness <= 100).
  { subst helpfulness. split; [|apply py_min_le_l].
    apply py_min_glb; [lra|].
    change 0 with (inject_Z 0). rewrite <- Zle_Qle. lia. }
  assert (Lb : 0 <= longevity <= 100).
  { subst longevity. split; [|apply py_min_le_l].
    apply py_min_glb; [lra|].
    setoid_replace (uptime_hours p / 10)
      with (uptime_hours p * (1 # 10)) by field.
    lra. }
  lra.
Qed.

(** C7. Reputation is idempotent and bounded.  For an agent whose
    performance record (the all-zero one when the engine holds none)
    has no negative counter, [calculate_reputation] leaves the metrics
    as they are, a second call, at whatever time, returns the same
    reliability, quality, honesty, helpfulness, longevity and overall
    score as the first, and the overall score lies between 0 and 100. *)
Theorem C7_reputation_idempotent_bounded :
  forall (e : t) (id : string) (now1 now2 : Q),
    nonneg_counters (metrics_of e id) ->
    let e1 := fst (calculate_reputation e id now1) in
    let r1 := snd (calculate_reputation e id now1) in
    let r2 := snd (calculate_reputation e1 id now2) in
    performance e1 = performance e
    /\ scores r2 = scores r1
    /\ 0 <= overall_score r1 <= 100.
Proof.
  intros e id now1 now2 Hnn e1 r1 r2.
  split; [reflexivity|]. split; [reflexivity|].
  subst r1. unfold calculate_reputation. cbv zeta. simpl.
  pose proof (overall_bounds _ Hnn) as Hb. cbv zeta in Hb.
  unfold metrics_of in Hb.
  destruct Hb as [Hb0 Hb100].
  apply round2_bounds; assumption.
Qed.

Lemma C7_reputation_idempotent_bounded_witness :
  scores (snd (calculate_reputation
                 (fst (calculate_reputation demo_engine "agent_alpha" 10))
                 "agent_alpha" 20))
  = scores (snd (calculate_reputation demo_engine "agent_alpha" 10))
  /\ 0 <= overall_score (snd (calculate_reputation demo_engine "agent_alpha" 10))
     <= 100.
Proof.
  apply (C7_reputation_idempotent_bounded demo_engine "agent_alpha" 10 20).
  unfold nonneg_counters. simpl.
  repeat split; try lia; try lra.
Defined.

(** The demonstration: agent_alpha scores 72.25 overall. *)
Example demo_overall_score :
  overall_score (snd (calculate_reputation demo_engine "agent_alpha" 10))
  == 72.25.
Proof. vm_compute. reflexivity. Qed.

End Reputation.

(** ** Spawning children *)

Section Scaling.
Import AutoScalingManager ScalingExamples.

(** The best-earning capabilities come first, equal earnings in their
    original order. *)
Example select_best_capabilities :
  select_inherited_capabilities first_k fresh_manager
    [Soul.mkCapability "coding" (Some 0.02);
     Soul.mkCapability "design" None;
     Soul.mkCapability "trading" (Some 0.05);
     Soul.mkCapability "testing" (Some 0.02)]
  = ["trading"; "coding"; "testing"].
Proof. reflexivity. Qed.




End Scaling.

(** ** Backups *)

Section Backups.
Import IpfsStorage BackupExamples.

Lemma last_record_app (history : list BackupRecord) (r : BackupRecord) :
  last_record (history ++ [r]) = Some r.
Proof. unfold last_record. now rewrite rev_app_distr. Qed.






End Backups.

(** ** Mutual aid *)

Section DictFacts.
Context {V : Type}.


Lemma dict_set_set (d : Dict.t V) (k : string) (v v' : V) :
  Dict.set k v' (Dict.set k v d) = Dict.set k v' d.
Proof.
  induction d as [|[k0 v0] d IH]; simpl.
  - now rewrite String.eqb_refl.
  - destruct (String.eqb k k0) eqn:E; simpl.
    + now rewrite String.eqb_refl.
    + now rewrite E, IH.
Qed.


Lemma dict_keys_set_wf (d : Dict.t V) (k : string) (v : V) :
  Dict.wf d -> Dict.wf (Dict.set k v d).
Proof.
  unfold Dict.wf, Dict.keys.
  induction d as [|[k' v'] d IH]; simpl; intro Hnd.
  - constructor; [intros []|constructor].
  - inversion Hnd as [|? ? Hnotin Hnd']; subst.
    destruct (String.eqb k k') eqn:E; simpl.
    + apply String.eqb_eq in E. subst k'. now constructor.
    + constructor; [|now apply IH].
      intro Hin. apply Hnotin.
      clear -Hin E. induction d as [|[k0 v0] d IH]; simpl in *.
      * destruct Hin as [->|[]]. now rewrite String.eqb_refl in E.
      * destruct (String.eqb k k0) eqn:E0; simpl in Hin.
        -- apply String.eqb_eq in E0. subst k0.
           destruct Hin as [->|Hin]; [now rewrite String.eqb_refl in E|auto].
        -- destruct Hin as [->|Hin]; auto.
Qed.


End DictFacts.







Lemma last_n_short {A : Type} (n : nat) (l : list A) :
  (List.length l <= n)%nat -> Py.last_n n l = l.
Proof.
  intro H. unfold Py.last_n.
  replace (List.length l - n)%nat with 0%nat by lia. reflexivity.
Qed.

Lemma keep_last_1000 {A : Type} (l : list A) :
  (if (1000 <? List.length l)%nat then Py.last_n 1000 l else l)
  = Py.last_n 1000 l.
Proof.
  destruct (1000 <? List.length l)%nat eqn:E; [reflexivity|].
  apply Nat.ltb_ge in E. symmetry. now apply last_n_short.
Qed.

Section MutualAidRound.
Import AgentCoordinationNetwork MutualAid.

Variable net : Network.
Variable now : Q.
Hypothesis Hok : registry_ok net.


Let deref (reg : Dict.t AgentProfile) (k : string) : list AgentProfile :=
  match Dict.get k reg with
  | Some h => [h]
  | None => []
  end.





Variable h : AgentProfile.
Variables before after : list AgentProfile.
Hypothesis Hsplit : eligible_helpers net = before ++ h :: after.
Hypothesis Hbefore : forall x, In x before -> reputation x < reputation h.
Hypothesis Hafter : forall x, In x after -> reputation x <= reputation h.









End MutualAidRound.

Section MutualAidTheorem.
Import AgentCoordinationNetwork MutualAid.




Lemma delivered_short (msgs new : list CoordinationMessage) :
  (List.length msgs + List.length new <= 1000)%nat ->
  delivered msgs new = msgs ++ new.
Proof.
  revert msgs. induction new as [|m new IH]; intros msgs H; simpl.
  - now rewrite app_nil_r.
  - simpl in H. unfold delivered in *. rewrite last_n_short.
    + rewrite IH; [now rewrite <- app_assoc|].
      rewrite length_app. simpl. lia.
    + rewrite length_app. simpl. lia.
Qed.


Lemma dict_set_in {V : Type} (d : Dict.t V) (k k' : string) (v v' : V) :
  In (k', v') (Dict.set k v d) -> (k', v') = (k, v) \/ In (k', v') d.
Proof.
  induction d as [|[k0 v0] d IH]; simpl.
  - intros [H|[]]. now left.
  - destruct (String.eqb k k0); simpl; intros [H|H]; auto.
    destruct (IH H); auto.
Qed.

(** Registration keeps the registry a dictionary keyed by [agent_id]. *)
Lemma register_agent_keyed (net : Network) (profile : AgentProfile) (now : Q) :
  Dict.wf (agents net) ->
  (forall k p, In (k, p) (agents net) -> agent_id p = k) ->
  Dict.wf (agents (fst (register_agent net profile now)))
  /\ (forall k p,
         In (k, p) (agents (fst (register_agent net profile now))) ->
         agent_id p = k).
Proof.
  intros Hwf Hkey. simpl. split; [now apply dict_keys_set_wf|].
  intros k p Hin. apply dict_set_in in Hin.
  destruct Hin as [Heq|Hin]; [|now apply Hkey].
  injection Heq as -> ->. reflexivity.
Qed.




End MutualAidTheorem.

(** ** The coordination network as a whole *)

Section NetworkProperties.
Import AgentCoordinationNetwork NetworkOps.

Lemma dict_get_some_in {V : Type} (d : Dict.t V) (k : string) (v : V) :
  Dict.get k d = Some v -> In (k, v) d.
Proof.
  induction d as [|[k' v'] d IH]; simpl; [discriminate|].
  destruct (String.eqb k k') eqn:E.
  - apply String.eqb_eq in E. subst k'. intro H. injection H as ->. now left.
  - intro H. right. now apply IH.
Qed.

Lemma dict_keys_set {V : Type} (d : Dict.t V) (k : string) (v : V) :
  Dict.keys (Dict.set k v d)
  = if Dict.mem k d then Dict.keys d else Dict.keys d ++ [k].
Proof.
  unfold Dict.mem, Dict.keys.
  induction d as [|[k' v'] d IH]; simpl; [reflexivity|].
  destruct (String.eqb k k') eqn:E; simpl.
  - apply String.eqb_eq in E. now subst k'.
  - rewrite IH. now destruct (Dict.get k d).
Qed.

(** X1. The message log is bounded, first in first out.
    [send_message] stores the stamped message as the newest entry,
    keeps the newest of the older entries in their order, drops only the
    oldest ones, and leaves a log of [min(1000, n + 1)] entries, where
    [n] is the size of the log before; it touches neither the agents
    nor the pools. *)
Theorem X1_send_message_bounded_fifo :
  forall (net : Network) (message : CoordinationMessage) (now : Q),
    let net' := fst (send_message net message now) in
    (exists dropped kept,
        messages net = dropped ++ kept
        /\ messages net' = kept ++ [set_timestamp message now])
    /\ List.length (messages net')
       = Nat.min 1000 (List.length (messages net) + 1)
    /\ agents net' = agents net
    /\ pools net' = pools net
    /\ snd (send_message net message now) = true.
Proof.
  intros net message now net'. subst net'.
  unfold send_message. cbv zeta. rewrite keep_last_1000.
  cbn [fst snd with_messages messages agents pools].
  unfold Py.last_n. rewrite length_app, skipn_app. cbn [List.length].
  set (n := List.length (messages net)).
  replace (n + 1 - 1000 - n)%nat with 0%nat by lia.
  cbn [skipn].
  split; [|split; [|auto]].
  - exists (firstn (n + 1 - 1000) (messages net)),
           (skipn (n + 1 - 1000) (messages net)).
    split; [symmetry; apply firstn_skipn|reflexivity].
  - rewrite length_app, length_skipn. cbn [List.length]. fold n. lia.
Qed.

(** X2. Registration and lookup.  After [register_agent] the registry
    maps the [agent_id] of the profile to the profile, stamped with the
    time of the call, and maps every other key as before; an agent that
    was registered keeps its place in the registration order, a new one
    comes last. *)
Theorem X2_register_agent_lookup :
  forall (net : Network) (profile : AgentProfile) (now : Q),
    let net' := fst (register_agent net profile now) in
    Dict.get (agent_id profile) (agents net')
    = Some (set_last_seen profile now)
    /\ (forall k, k <> agent_id profile ->
                  Dict.get k (agents net') = Dict.get k (agents net))
    /\ Dict.keys (agents net')
       = (if Dict.mem (agent_id profile) (agents net)
          then Dict.keys (agents net)
          else Dict.keys (agents net) ++ [agent_id profile])
    /\ messages net' = messages net
    /\ pools net' = pools net.
Proof.
  intros net profile now net'. subst net'. simpl.
  split; [apply dict_get_set_same|].
  split; [intros k Hk; now apply dict_get_set_other|].
  split; [apply dict_keys_set|auto].
Qed.

(** The registry is keyed by [agent_id], holds each key once, and no
    reputation in it exceeds 100. *)
Let keyed_in_range (net : Network) : Prop :=
  Dict.wf (agents net)
  /\ (forall k p, In (k, p) (agents net) ->
                  agent_id p = k /\ reputation p <= 100).

Lemma keyed_in_range_set (net : Network) (k : string) (p : AgentProfile) :
  keyed_in_range net ->
  agent_id p = k -> reputation p <= 100 ->
  keyed_in_range (with_agents net (Dict.set k p (agents net))).
Proof.
  intros [Hwf Hkey] Hid Hrep. split; simpl.
  - now apply dict_keys_set_wf.
  - intros k' p' Hin. apply dict_set_in in Hin.
    destruct Hin as [Heq|Hin]; [|now apply Hkey].
    injection Heq as -> ->. auto.
Qed.

Lemma keyed_in_range_same_agents (net net' : Network) :
  agents net' = agents net -> keyed_in_range net -> keyed_in_range net'.
Proof. unfold keyed_in_range. now intros ->. Qed.

Lemma offer_help_keyed (net : Network) (agent target ty : string)
  (off : Offer) (now : Q) :
  keyed_in_range net ->
  keyed_in_range (fst (offer_help net agent target ty off now)).
Proof.
  intro Hinv. unfold offer_help. cbv zeta.
  set (net1 := fst (send_message net _ now)).
  assert (H1 : keyed_in_range net1) by (now apply (keyed_in_range_same_agents net)).
  destruct (Dict.get agent (agents net1)) as [a|] eqn:E; cbn [fst];
    [|exact H1].
  apply dict_get_some_in in E.
  apply (keyed_in_range_set net1); [exact H1| |apply py_min_le_l].
  apply (proj2 H1 _ _ E).
Qed.

Lemma contribute_to_pool_keyed (net : Network) (pid agent : string)
  (amount : Q) :
  keyed_in_range net ->
  keyed_in_range (fst (contribute_to_pool net pid agent amount)).
Proof.
  intro Hinv. unfold contribute_to_pool.
  destruct (Dict.get pid (pools net)) as [pool|]; [|exact Hinv].
  cbv zeta. set (net1 := with_pools net _).
  assert (H1 : keyed_in_range net1) by (now apply (keyed_in_range_same_agents net)).
  destruct (Dict.get agent (agents net1)) as [a|] eqn:E; cbn [fst];
    [|exact H1].
  apply dict_get_some_in in E.
  apply (keyed_in_range_set net1); [exact H1| |apply py_min_le_l].
  apply (proj2 H1 _ _ E).
Qed.

Lemma request_loan_agents (net : Network) (pid agent purpose : string)
  (amount now : Q) :
  agents (fst (fst (request_loan net pid agent amount purpose now)))
  = agents net.
Proof.
  unfold request_loan.
  repeat match goal with
         | |- context [match ?x with _ => _ end] => destruct x
         end; reflexivity.
Qed.

Lemma mutual_aid_step_keyed (helpers : list string) (now : Q)
  (acc : Network * nat) (need : AgentProfile) :
  keyed_in_range (fst acc) ->
  keyed_in_range (fst (mutual_aid_step helpers now acc need)).
Proof.
  destruct acc as [net c]. simpl fst. intro Hinv.
  unfold mutual_aid_step.
  destruct (Py.max_by _ _); simpl; [now apply offer_help_keyed|exact Hinv].
Qed.

Lemma run_mutual_aid_round_keyed (net : Network) (now : Q) :
  keyed_in_range net -> keyed_in_range (fst (run_mutual_aid_round net now)).
Proof.
  unfold run_mutual_aid_round. cbv zeta.
  generalize (find_agents_needing_help net) as needy.
  generalize (map fst
                (filter (fun kv : string * AgentProfile =>
                           offers_help (snd kv)
                           && Py.in_list (tier (snd kv)) ["NORMAL"; "THRIVING"])
                        (agents net))) as helpers.
  intros helpers needy.
  change net with (fst (net, 0%nat)) at 1.
  generalize (net, 0%nat) as acc.
  induction needy as [|need needy IH]; intros acc Hinv; [exact Hinv|].
  cbn [fold_left]. apply IH. now apply mutual_aid_step_keyed.
Qed.

Lemma run_call_keyed (net : Network) (c : Call) :
  registers_in_range c ->
  keyed_in_range net -> keyed_in_range (run_call net c).
Proof.
  intros Hc Hinv. destruct c; simpl in *.
  - apply keyed_in_range_set; [exact Hinv|reflexivity|exact Hc].
  - now apply (keyed_in_range_same_agents net).
  - now apply offer_help_keyed.
  - now apply (keyed_in_range_same_agents net).
  - now apply contribute_to_pool_keyed.
  - apply (keyed_in_range_same_agents net); [apply request_loan_agents|exact Hinv].
  - now apply run_mutual_aid_round_keyed.
Qed.

(** X3. The registry stays well formed.  From the empty network, after
    every sequence of registrations (of profiles with a reputation of at
    most 100), messages, offers of help, pool creations, contributions,
    loan requests and mutual aid rounds, the registry holds each key
    once, every profile sits under its own [agent_id] and no reputation
    exceeds 100: the rewards of [offer_help] and [contribute_to_pool]
    stop at 100.  So the registry meets what the matching of a mutual
    aid round relies on. *)
Theorem X3_registry_well_formed :
  forall calls : list Call,
    Forall registers_in_range calls ->
    let net := run_calls PoolLedger.empty_network calls in
    Dict.wf (agents net)
    /\ (forall k p, In (k, p) (agents net) ->
                    agent_id p = k /\ reputation p <= 100)
    /\ MutualAid.registry_ok net.
Proof.
  intros calls Hcalls net.
  assert (Hinv : keyed_in_range net).
  { subst net. unfold run_calls.
    assert (H0 : keyed_in_range PoolLedger.empty_network).
    { split; [constructor|intros k p []]. }
    revert H0. generalize PoolLedger.empty_network as net0.
    induction Hcalls as [|c calls Hc _ IH]; intros net0 H0; [exact H0|].
    simpl. apply IH. now apply run_call_keyed. }
  destruct Hinv as [Hwf Hkey].
  split; [exact Hwf|]. split; [exact Hkey|].
  split; [exact Hwf|]. split; [intros k p Hin; apply (Hkey k p Hin)|].
  intros p Hin. apply filter_In in Hin. destruct Hin as [Hin _].
  apply in_map_iff in Hin. destruct Hin as ([k p'] & Hp & Hin).
  simpl in Hp. subst p'. apply (Hkey k p Hin).
Qed.

Lemma X3_registry_well_formed_witness :
  MutualAid.registry_ok (run_calls PoolLedger.empty_network demo_calls).
Proof.
  apply (X3_registry_well_formed demo_calls).
  repeat constructor; simpl; lra.
Defined.

End NetworkProperties.

Section NetworkBooks.
Import AgentCoordinationNetwork NetworkOps.

Lemma fold_left_Qplus_acc (l : list Q) :
  forall a, fold_left Qplus l a == a + sum l.
Proof.
  unfold sum. induction l as [|x l IH]; intro a; simpl.
  - ring.
  - rewrite (IH (a + x)), (IH (0 + x)). ring.
Qed.

Lemma sum_cons (x : Q) (l : list Q) : sum (x :: l) == x + sum l.
Proof.
  unfold sum at 1. simpl. rewrite fold_left_Qplus_acc. ring.
Qed.













(** X5. A request that returns no loan changes nothing, whichever
    check refused it (unknown pool, reputation, funds). *)
Theorem X5_denied_loan_changes_nothing :
  forall (net net' : Network) (pid agent purpose : string) (amount now : Q)
         (out : list Printed),
    request_loan net pid agent amount purpose now = (net', None, out) ->
    net' = net.
Proof.
  intros net net' pid agent purpose amount now out.
  unfold request_loan.
  destruct (Dict.get pid (pools net)) as [pool|];
    [|intro H; now injection H].
  destruct (match Dict.get agent (agents net) with
            | Some a => Py.ltb (reputation a) 20
            | None => false
            end); [intro H; now injection H|].
  destruct (Py.ltb (total_balance pool) amount);
    [intro H; now injection H|discriminate].
Qed.

Lemma X5_denied_loan_changes_nothing_witness :
  fst (fst (request_loan PoolLedger.scenario_network "emergency_fund" "B" 5
              "Too much" 1000))
  = PoolLedger.scenario_network.
Proof.
  apply (X5_denied_loan_changes_nothing PoolLedger.scenario_network _
           "emergency_fund" "B" "Too much" 5 1000
           [InsufficientFunds "Emergency Fund"]).
  reflexivity.
Defined.

End NetworkBooks.

Section NetworkStatistics.
Import AgentCoordinationNetwork NetworkOps.




Lemma sum_bounds (l : list Q) (lo hi : Q) :
  (forall x, In x l -> lo <= x <= hi) ->
  inject_Z (Z.of_nat (List.length l)) * lo <= sum l
  /\ sum l <= inject_Z (Z.of_nat (List.length l)) * hi.
Proof.
  induction l as [|x l IH]; intro H.
  - unfold sum. cbn [List.length fold_left Z.of_nat].
    change (inject_Z 0) with 0. lra.
  - destruct IH as [IH1 IH2]; [intros; apply H; now right|].
    destruct (H x (or_introl eq_refl)) as [Hx1 Hx2].
    rewrite sum_cons.
    replace (List.length (x :: l)) with (S (List.length l)) by reflexivity.
    rewrite Nat2Z.inj_succ. unfold Z.succ. rewrite inject_Z_plus.
    change (inject_Z 1) with 1.
    set (n := inject_Z (Z.of_nat (List.length l))) in *.
    split; lra.
Qed.


(** X7. [update_agent_status] moves no agent.  For an unknown agent it
    returns [False] and changes nothing.  For a registered one it
    returns [True], stamps the stored profile with the time of the
    call, and keeps the keys of the registry and their order, the
    profiles under every other key, the messages and the pools; a
    keyword that names no attribute is skipped. *)
Theorem X7_update_agent_status_in_place :
  forall (net : Network) (id : string) (kwargs : list Keyword) (now : Q),
    let net' := fst (update_agent_status net id kwargs now) in
    let ok := snd (update_agent_status net id kwargs now) in
    ok = Dict.mem id (agents net)
    /\ (ok = false -> net' = net)
    /\ (ok = true ->
        exists a, Dict.get id (agents net') = Some a /\ last_seen a = now)
    /\ Dict.keys (agents net') = Dict.keys (agents net)
    /\ (forall k, k <> id ->
                  Dict.get k (agents net') = Dict.get k (agents net))
    /\ messages net' = messages net
    /\ pools net' = pools net
    /\ (forall key,
           update_agent_status net id (kw_other key :: kwargs) now
           = update_agent_status net id kwargs now).
Proof.
  intros net id kwargs now net' ok. subst net' ok.
  unfold update_agent_status, Dict.mem.
  destruct (Dict.get id (agents net)) as [agent|] eqn:E; cbn [fst snd].
  - split; [reflexivity|]. split; [discriminate|]. split.
    { intros _. eexists. split; [apply dict_get_set_same|reflexivity]. }
    split.
    { cbn [agents with_agents]. rewrite dict_keys_set.
      unfold Dict.mem. now rewrite E. }
    split.
    { intros k Hk. cbn [agents with_agents]. now apply dict_get_set_other. }
    repeat split.
  - repeat split; auto. discriminate.
Qed.

End NetworkStatistics.


(** ** Spending under the guardrails *)

Section Spending.
Import SpendingGuardrails GuardrailOps.

Lemma can_spend_state (g : t) (amount : Q) (recipient : option string)
  (purpose : string) (now : Q) :
  fst (can_spend g amount recipient purpose now) = _reset_if_needed g now.
Proof.
  unfold can_spend. cbv zeta.
  repeat match goal with
         | |- context [if ?c then _ else _] => destruct c
         end; reflexivity.
Qed.

Lemma can_spend_allowed_inv (g : t) (amount : Q) (recipient : option string)
  (purpose : string) (now : Q) :
  allowed (snd (can_spend g amount recipient purpose now)) = true ->
  emergency_stop g = false
  /\ get_daily_total (_reset_if_needed g now) + amount <= get_daily_limit g
  /\ is_blocked g recipient = false
  /\ (amount < MICRO_PAYMENT_MAX (cls g)
      \/ amount < SMALL_PAYMENT_MAX (cls g)
      \/ amount < MEDIUM_PAYMENT_MAX (cls g))
  /\ requires_approval (snd (can_spend g amount recipient purpose now))
     = false.
Proof.
  unfold can_spend. cbv zeta.
  destruct (reset_keeps_settings g now) as [Hcls [_ Hes]].
  rewrite Hes, reset_keeps_limit, reset_keeps_blocked, Hcls.
  destruct (emergency_stop g); [discriminate|].
  unfold Py.gtb.
  destruct (Py.ltb (get_daily_limit g) _) eqn:El; [discriminate|].
  apply ltb_false_iff in El.
  destruct (is_blocked g recipient); [discriminate|].
  destruct (Py.ltb amount (MICRO_PAYMENT_MAX (cls g))) eqn:E1.
  { apply ltb_true_iff in E1. auto 10. }
  destruct (Py.ltb amount (SMALL_PAYMENT_MAX (cls g))) eqn:E2.
  { apply ltb_true_iff in E2. auto 10. }
  destruct (Py.ltb amount (MEDIUM_PAYMENT_MAX (cls g))) eqn:E3.
  { apply ltb_true_iff in E3. auto 10. }
  discriminate.
Qed.

Lemma can_spend_approval (g : t) (amount : Q) (recipient : option string)
  (purpose : string) (now : Q) :
  requires_approval (snd (can_spend g amount recipient purpose now))
  = negb (allowed (snd (can_spend g amount recipient purpose now))).
Proof.
  unfold can_spend. cbv zeta.
  repeat match goal with
         | |- context [if ?c then _ else _] => destruct c
         end; reflexivity.
Qed.

(** X8. What an allowed payment guarantees.  When [can_spend] allows a
    payment, the emergency stop is off, the daily total (after the lazy
    reset) plus the amount is within the daily limit, the recipient is
    not blocked, the amount is below one of the three payment
    thresholds, and no approval is required; and for every decision
    [requires_approval] is the negation of [allowed]. *)
Theorem X8_allowed_payment_is_within_limits :
  forall (g : t) (amount : Q) (recipient : option string) (purpose : string)
         (now : Q),
    allowed (snd (can_spend g amount recipient purpose now)) = true ->
    emergency_stop g = false
    /\ get_daily_total (_reset_if_needed g now) + amount <= get_daily_limit g
    /\ is_blocked g recipient = false
    /\ (amount < MICRO_PAYMENT_MAX (cls g)
        \/ amount < SMALL_PAYMENT_MAX (cls g)
        \/ amount < MEDIUM_PAYMENT_MAX (cls g))
    /\ (forall amount' recipient' purpose' now',
           requires_approval
             (snd (can_spend g amount' recipient' purpose' now'))
           = negb (allowed
                     (snd (can_spend g amount' recipient' purpose' now')))).
Proof.
  intros g amount recipient purpose now H.
  destruct (can_spend_allowed_inv _ _ _ _ _ H) as (H1 & H2 & H3 & H4 & _).
  repeat split; auto. intros. apply can_spend_approval.
Qed.

Lemma X8_allowed_payment_is_within_limits_witness :
  get_daily_total (_reset_if_needed Examples.guarded 100) + 0.5
  <= get_daily_limit Examples.guarded.
Proof.
  apply (X8_allowed_payment_is_within_limits Examples.guarded 0.5
           (Some "shop") "tools" 100).
  reflexivity.
Defined.

(** X9. The emergency stop blocks every check.  After
    [emergency_stop_toggle(True)] every [can_spend] is refused with the
    emergency reason, whatever the amount and the recipient; the toggle
    keeps the ledger and the limits, and a later toggle overrides an
    earlier one. *)
Theorem X9_emergency_stop_blocks_all :
  forall (g : t) (amount : Q) (recipient : option string) (purpose : string)
         (now : Q) (b b' : bool),
    snd (can_spend (emergency_stop_toggle g true) amount recipient purpose now)
    = mkDecision false EmergencyStopActive true (Some EmergencyStopPrompt) None
    /\ history (emergency_stop_toggle g b) = history g
    /\ get_daily_limit (emergency_stop_toggle g b) = get_daily_limit g
    /\ emergency_stop_toggle (emergency_stop_toggle g b) b'
       = emergency_stop_toggle g b'
    /\ snd (can_spend (emergency_stop_toggle g false) amount recipient
              purpose now)
       = snd (can_spend
                (mkGuardrails (cls g) (config g) (history g) false)
                amount recipient purpose now).
Proof.
  intros g amount recipient purpose now b b'.
  split; [|split; [|split; [|split]]]; try reflexivity.
  - unfold can_spend. cbv zeta.
    destruct (reset_keeps_settings (emergency_stop_toggle g true) now)
      as [_ [_ Hes]].
    rewrite Hes. reflexivity.
  - destruct g as [c [dl wl bl ce] h e].
    unfold can_spend, _reset_if_needed, emergency_stop_toggle. cbv zeta.
    cbn [history config cls emergency_stop].
    destruct (Py.gtb (now - _) 86400);
      unfold is_blocked, get_daily_total, get_daily_limit, with_history;
      cbn [history config cls emergency_stop daily_limit blocked_recipients
           daily_total];
      repeat match goal with
             | |- context [if ?c then _ else _] => destruct c
             end; reflexivity.
Qed.

Lemma set_limits_daily (g : t) (daily weekly : option Q) :
  get_daily_limit (set_limits g daily weekly)
  = if truthy_float daily
    then match daily with Some d => d | None => 0 end
    else get_daily_limit g.
Proof.
  unfold set_limits, get_daily_limit. cbv zeta.
  destruct daily as [d|]; cbn [truthy_float];
    [destruct (negb (Qeq_bool d 0))|];
    destruct (truthy_float weekly); reflexivity.
Qed.

(** X10. [set_limits] ignores a missing or zero limit and installs any
    other: the daily limit [can_spend] reads is then the new one, so a
    payment it allows keeps the daily total within the new limit;
    the ledger and the emergency stop are left alone. *)
Theorem X10_set_limits_takes_effect :
  forall (g : t) (d : Q) (weekly : option Q),
    get_daily_limit (set_limits g None weekly) = get_daily_limit g
    /\ get_daily_limit (set_limits g (Some 0) weekly) = get_daily_limit g
    /\ history (set_limits g (Some d) weekly) = history g
    /\ emergency_stop (set_limits g (Some d) weekly) = emergency_stop g
    /\ (Qeq_bool d 0 = false ->
        get_daily_limit (set_limits g (Some d) weekly) = d
        /\ forall amount recipient purpose now,
             allowed (snd (can_spend (set_limits g (Some d) weekly) amount
                             recipient purpose now)) = true ->
             get_daily_total
               (_reset_if_needed (set_limits g (Some d) weekly) now)
             + amount <= d).
Proof.
  intros g d weekly.
  split; [now rewrite set_limits_daily|].
  split; [now rewrite set_limits_daily|].
  split; [reflexivity|]. split; [reflexivity|].
  intro Hd.
  assert (Hl : get_daily_limit (set_limits g (Some d) weekly) = d).
  { rewrite set_limits_daily. cbn [truthy_float]. now rewrite Hd. }
  split; [exact Hl|].
  intros amount recipient purpose now Hallowed.
  apply can_spend_allowed_inv in Hallowed.
  destruct Hallowed as (_ & H & _). now rewrite Hl in H.
Qed.

End Spending.

Section SpendingLedger.
Import SpendingGuardrails GuardrailOps.

Lemma record_spending_some (g : t) (amount : Q) (recipient purpose : string)
  (hash : option string) (now d w : Q) :
  daily_total (history g) = Some d ->
  weekly_total (history g) = Some w ->
  record_spending g amount recipient purpose hash now
  = Some (with_history g
            (mkHistory
               (Py.last_n 1000
                  (transactions (history g)
                   ++ [mkTransaction now amount recipient purpose hash]))
               (Some (d + amount)) (Some (w + amount))
               (last_reset (history g)))).
Proof.
  intros Hd Hw. unfold record_spending. cbv zeta.
  now rewrite Hd, Hw, keep_last_1000.
Qed.

(** X11. [spend] lets every micro-payment through.  With
    [auto_approve_micro], an amount below [MICRO_PAYMENT_MAX] is
    recorded and reported as a success whatever [can_spend] decided:
    also under the emergency stop, over the daily limit or to a blocked
    recipient.  (The history must hold its two totals, or
    [record_spending] raises.) *)
Theorem X11_spend_auto_approves_micro :
  forall (g : t) (amount : Q) (recipient purpose : string) (now d w : Q),
    amount < MICRO_PAYMENT_MAX (cls g) ->
    daily_total (history (_reset_if_needed g now)) = Some d ->
    weekly_total (history g) = Some w ->
    exists g' r,
      spend g amount recipient purpose true now = Some (g', r)
      /\ success r = true
      /\ daily_total (history g') = Some (d + amount)
      /\ weekly_total (history g') = Some (w + amount)
      /\ emergency_stop g' = emergency_stop g.
Proof.
  intros g amount recipient purpose now d w Hmicro Hd Hw.
  unfold spend.
  pose proof (can_spend_state g amount (Some recipient) purpose now) as Hst.
  pose proof (can_spend_approval g amount (Some recipient) purpose now) as Hap.
  destruct (can_spend g amount (Some recipient) purpose now) as [g1 check].
  cbn [fst snd] in Hst, Hap. subst g1.
  destruct (reset_keeps_settings g now) as [Hcls [_ Hes]].
  assert (Hw' : weekly_total (history (_reset_if_needed g now)) = Some w).
  { unfold _reset_if_needed. cbv zeta.
    destruct (Py.gtb _ _); [exact Hw|exact Hw]. }
  rewrite Hap, Hcls.
  apply ltb_true_iff in Hmicro. rewrite Hmicro.
  rewrite (record_spending_some _ _ _ _ _ _ d w Hd Hw').
  destruct (allowed check); cbn [negb andb];
    do 2 eexists; (split; [reflexivity|]); repeat split; exact Hes.
Qed.

Lemma X11_spend_auto_approves_micro_witness :
  exists g' r,
    spend stopped 0.005 "scammer" "gift" true 100 = Some (g', r)
    /\ success r = true
    /\ daily_total (history g') = Some (3 + 0.005)
    /\ weekly_total (history g') = Some (3 + 0.005)
    /\ emergency_stop g' = emergency_stop stopped.
Proof.
  apply (X11_spend_auto_approves_micro stopped 0.005 "scammer" "gift" 100
           3 3); reflexivity.
Defined.

(** X12. Otherwise [spend] obeys [can_spend].  Without
    [auto_approve_micro], or for an amount of at least
    [MICRO_PAYMENT_MAX], [spend] succeeds exactly when [can_spend]
    allows the payment (approval is never granted); a refused payment
    leaves the object as the lazy reset left it, an allowed one adds
    the amount to the daily total; the call raises only when the
    payment is allowed and the history lacks a total. *)
Theorem X12_spend_obeys_can_spend :
  forall (g : t) (amount : Q) (recipient purpose : string)
         (auto_approve_micro : bool) (now : Q),
    auto_approve_micro = false \/ MICRO_PAYMENT_MAX (cls g) <= amount ->
    let check := snd (can_spend g amount (Some recipient) purpose now) in
    match spend g amount recipient purpose auto_approve_micro now with
    | Some (g', r) =>
        success r = allowed check
        /\ (success r = false -> g' = _reset_if_needed g now)
        /\ (success r = true ->
            exists d,
              daily_total (history (_reset_if_needed g now)) = Some d
              /\ daily_total (history g') = Some (d + amount)
              /\ d + amount <= get_daily_limit g)
    | None =>
        allowed check = true
        /\ (daily_total (history (_reset_if_needed g now)) = None
            \/ weekly_total (history g) = None)
    end.
Proof.
  intros g amount recipient purpose auto now Hcase check. subst check.
  unfold spend.
  pose proof (can_spend_state g amount (Some recipient) purpose now) as Hst.
  pose proof (can_spend_approval g amount (Some recipient) purpose now) as Hap.
  pose proof (can_spend_allowed_inv g amount (Some recipient) purpose now)
    as Hinv.
  destruct (can_spend g amount (Some recipient) purpose now) as [g1 check].
  cbn [fst snd] in *. subst g1.
  destruct (reset_keeps_settings g now) as [Hcls [_ Hes]].
  assert (Hw' : weekly_total (history (_reset_if_needed g now))
                = weekly_total (history g)).
  { unfold _reset_if_needed. cbv zeta. destruct (Py.gtb _ _); reflexivity. }
  rewrite Hap, Hcls.
  assert (Hno : auto && Py.ltb amount (MICRO_PAYMENT_MAX (cls g)) = false).
  { destruct Hcase as [->|Hge]; [reflexivity|].
    apply ltb_false_iff in Hge. rewrite Hge. apply andb_false_r. }
  rewrite Hno.
  destruct (allowed check) eqn:Ea; cbn [negb andb request_approval].
  - destruct (Hinv eq_refl) as (_ & Hlim & _).
    unfold record_spending. cbv zeta. rewrite Hw'.
    unfold get_daily_total in Hlim.
    destruct (daily_total (history (_reset_if_needed g now))) as [d|];
      [|split; [reflexivity|now left]].
    destruct (weekly_total (history g)) as [wk|];
      [|split; [reflexivity|now right]].
    cbn [success]. split; [reflexivity|]. split; [discriminate|].
    intros _. exists d. repeat split; assumption.
  - cbn [success]. split; [reflexivity|]. split; [reflexivity|discriminate].
Qed.

Lemma X12_spend_obeys_can_spend_witness :
  match spend Examples.guarded 5 "shop" "server" false 100 with
  | Some (g', r) => success r = false
  | None => False
  end.
Proof.
  pose proof (X12_spend_obeys_can_spend Examples.guarded 5 "shop" "server"
                false 100 (or_introl eq_refl)) as H.
  cbv zeta in H.
  destruct (spend Examples.guarded 5 "shop" "server" false 100)
    as [[g' r]|] eqn:E.
  - destruct H as [-> _]. reflexivity.
  - discriminate E.
Defined.

(** X13. [safe_transfer] keeps the daily total within the daily limit.
    A transfer that is reported done was allowed by [can_spend]: the
    emergency stop is off, the recipient is not blocked, and the daily
    total after recording the amount is at most the daily limit.  A
    transfer that is reported refused records nothing. *)
Theorem X13_safe_transfer_within_limit :
  forall (g g' : t) (to_address purpose : string) (amount now : Q)
         (done : bool),
    safe_transfer g to_address amount purpose now = Some (g', done) ->
    if done
    then get_daily_total g' <= get_daily_limit g'
         /\ emergency_stop g = false
         /\ is_blocked g (Some to_address) = false
         /\ exists d,
             daily_total (history (_reset_if_needed g now)) = Some d
             /\ daily_total (history g') = Some (d + amount)
    else g' = _reset_if_needed g now.
Proof.
  intros g g' to_address purpose amount now done.
  unfold safe_transfer.
  pose proof (can_spend_state g amount (Some to_address) purpose now) as Hst.
  pose proof (can_spend_approval g amount (Some to_address) purpose now)
    as Hap.
  pose proof (can_spend_allowed_inv g amount (Some to_address) purpose now)
    as Hinv.
  destruct (can_spend g amount (Some to_address) purpose now) as [g1 check].
  cbn [fst snd] in *. subst g1. rewrite Hap.
  destruct (allowed check); cbn [negb andb].
  - destruct (Hinv eq_refl) as (Hes & Hlim & Hbl & _).
    unfold record_spending. cbv zeta.
    unfold get_daily_total in Hlim.
    destruct (daily_total (history (_reset_if_needed g now))) as [d|];
      [|discriminate].
    destruct (weekly_total (history (_reset_if_needed g now))) as [wk|];
      [|discriminate].
    intro H. injection H as <- <-.
    split; [|split; [exact Hes|split; [exact Hbl|]]].
    + unfold get_daily_total, get_daily_limit. cbn [history with_history
        daily_total config cls].
      destruct (reset_keeps_settings g now) as [Hcls [Hcfg _]].
      rewrite Hcfg, Hcls. exact Hlim.
    + exists d. split; reflexivity.
  - intro H. injection H as <- <-. reflexivity.
Qed.

Lemma X13_safe_transfer_within_limit_witness :
  exists g',
    safe_transfer Examples.guarded "shop" 0.5 "tools" 100 = Some (g', true)
    /\ get_daily_total g' <= get_daily_limit g'.
Proof.
  eexists. split; [reflexivity|].
  apply (X13_safe_transfer_within_limit Examples.guarded _ "shop" "tools"
           0.5 100 true eq_refl).
Defined.

(** X14. The ledger of [record_spending].  The call raises exactly when
    the history lacks its daily or its weekly total.  Otherwise it adds
    the amount to both totals, appends the transaction as the newest
    entry of a ledger cut to its last 1000 entries (the oldest are
    dropped, the totals still count them), and leaves [last_reset], the
    limits and the emergency stop alone. *)
Theorem X14_record_spending_ledger :
  forall (g : t) (amount : Q) (recipient purpose : string)
         (hash : option string) (now : Q),
    match record_spending g amount recipient purpose hash now with
    | None =>
        daily_total (history g) = None \/ weekly_total (history g) = None
    | Some g' =>
        (exists d w,
            daily_total (history g) = Some d
            /\ weekly_total (history g) = Some w
            /\ daily_total (history g') = Some (d + amount)
            /\ weekly_total (history g') = Some (w + amount))
        /\ (exists dropped kept,
               transactions (history g) = dropped ++ kept
               /\ transactions (history g')
                  = kept ++ [mkTransaction now amount recipient purpose hash])
        /\ List.length (transactions (history g'))
           = Nat.min 1000 (List.length (transactions (history g)) + 1)
        /\ last_reset (history g') = last_reset (history g)
        /\ config g' = config g
        /\ emergency_stop g' = emergency_stop g
    end.
Proof.
  intros g amount recipient purpose hash now.
  destruct (daily_total (history g)) as [d|] eqn:Hd.
  - destruct (weekly_total (history g)) as [w|] eqn:Hw.
    + rewrite (record_spending_some _ _ _ _ _ _ d w Hd Hw).
      cbn [history with_history daily_total weekly_total transactions
           last_reset config emergency_stop].
      split; [exists d, w; auto|].
      unfold Py.last_n. rewrite length_app, skipn_app. cbn [List.length].
      set (n := List.length (transactions (history g))).
      replace (n + 1 - 1000 - n)%nat with 0%nat by lia. cbn [skipn].
      split; [|split; [|auto]].
      * exists (firstn (n + 1 - 1000) (transactions (history g))),
               (skipn (n + 1 - 1000) (transactions (history g))).
        split; [symmetry; apply firstn_skipn|reflexivity].
      * rewrite length_app, length_skipn. cbn [List.length]. fold n. lia.
    + unfold record_spending. cbv zeta. rewrite Hd, Hw. now right.
  - unfold record_spending. cbv zeta. rewrite Hd. now left.
Qed.

End SpendingLedger.

(** ** The reputation engine over time *)

Section ReputationOverTime.
Import ReputationEngine ReputationSpec ReputationOps.

(** The amount a keyword adds is not negative. *)
Let nonneg_increment (i : Increment) : Prop :=
  match i with
  | add_tasks_completed n | add_tasks_failed n | add_backups_created n
  | add_souls_traded n | add_clones_created n | add_children_survived n =>
      (0 <= n)%Z
  | add_total_earnings v | add_total_spent v | add_avg_task_value v
  | add_uptime_hours v => 0 <= v
  | add_other _ => True
  end.

Lemma add_increment_nonneg (p : PerformanceMetrics) (i : Increment) :
  nonneg_increment i -> nonneg_counters p -> nonneg_counters (add_increment p i).
Proof.
  unfold nonneg_counters.
  intros Hi (H1 & H2 & H3 & H4 & H5 & H6 & H7 & H8 & H9).
  destruct i; simpl in *; repeat split; try assumption; try lia; lra.
Qed.

Lemma add_increments_nonneg (kwargs : list Increment) :
  forall p,
    Forall nonneg_increment kwargs ->
    nonneg_counters p -> nonneg_counters (fold_left add_increment kwargs p).
Proof.
  induction kwargs as [|i kwargs IH]; intros p Hall Hp; [exact Hp|].
  inversion Hall; subst. simpl. apply IH; [assumption|].
  now apply add_increment_nonneg.
Qed.

Lemma default_metrics_nonneg (id : string) : nonneg_counters (default_metrics id).
Proof. unfold nonneg_counters. simpl. repeat split; try lia; lra. Qed.

(** What an update leaves in the engine. *)
Lemma update_performance_spec (e : t) (id : string) (kwargs : list Increment)
  (now : Q) :
  let e' := update_performance e id kwargs now in
  performance e'
  = Dict.set id (fold_left add_increment kwargs (metrics_of e id))
      (performance e)
  /\ reputations e'
     = Dict.set id (snd (calculate_reputation e' id now)) (reputations e)
  /\ metrics_of e' id = fold_left add_increment kwargs (metrics_of e id).
Proof.
  cbv zeta. unfold update_performance, metrics_of. cbv zeta.
  cbn [fst calculate_reputation performance reputations].
  split; [reflexivity|]. split.
  - unfold calculate_reputation. cbn [snd fst performance]. reflexivity.
  - now rewrite dict_get_set_same.
Qed.

Lemma update_performance_others (e : t) (id k : string)
  (kwargs : list Increment) (now : Q) :
  k <> id ->
  Dict.get k (reputations (update_performance e id kwargs now))
  = Dict.get k (reputations e)
  /\ Dict.get k (performance (update_performance e id kwargs now))
     = Dict.get k (performance e).
Proof.
  intro Hk.
  destruct (update_performance_spec e id kwargs now) as (Hp & Hr & _).
  cbv zeta in Hp, Hr. rewrite Hp, Hr.
  split; now apply dict_get_set_other.
Qed.

Lemma update_performance_fresh (e : t) (id : string)
  (kwargs : list Increment) (now : Q) :
  Dict.get id (reputations (update_performance e id kwargs now))
  = Some (snd (calculate_reputation (update_performance e id kwargs now)
                 id now)).
Proof.
  destruct (update_performance_spec e id kwargs now) as (_ & Hr & _).
  cbv zeta in Hr. rewrite Hr at 1. apply dict_get_set_same.
Qed.

Lemma record_is_update (e : t) (ev : Event) (now : Q) :
  exists e0 kwargs,
    record e (ev, now) = update_performance e0 (subject ev) kwargs now
    /\ (forall k, k <> subject ev ->
                  Dict.get k (reputations e0) = Dict.get k (reputations e)
                  /\ Dict.get k (performance e0) = Dict.get k (performance e)).
Proof.
  destruct ev as [id value [|]|id amount [|]|id [|]|id|id hours];
    cbn [record subject record_task_completion record_trade record_clone
         record_backup].
  - exists e, [add_tasks_completed 1; add_total_earnings value]. auto.
  - exists e, [add_tasks_failed 1]. auto.
  - exists (update_performance e id [add_souls_traded 1] now),
           [add_total_earnings amount].
    split; [reflexivity|]. intros k Hk. now apply update_performance_others.
  - exists (update_performance e id [add_souls_traded 1] now),
           [add_total_spent amount].
    split; [reflexivity|]. intros k Hk. now apply update_performance_others.
  - exists (update_performance e id [add_clones_created 1] now),
           [add_children_survived 1].
    split; [reflexivity|]. intros k Hk. now apply update_performance_others.
  - exists e, [add_clones_created 1]. auto.
  - exists e, [add_backups_created 1]. auto.
  - exists e, [add_uptime_hours hours]. auto.
Qed.

(** X15. The stored reputation is never stale.  After any of the event
    recorders ([record_task_completion], [record_trade], [record_clone],
    [record_backup], an uptime update) the engine holds, for the agent
    of the event, exactly the scores [calculate_reputation] gives for
    its metrics as they now stand, whenever it is asked; the metrics and
    the reputation of every other agent are untouched. *)
Theorem X15_reputation_never_stale :
  forall (e : t) (ev : Event) (now : Q),
    let e' := record e (ev, now) in
    (exists rep,
        Dict.get (subject ev) (reputations e') = Some rep
        /\ forall now',
             scores (snd (calculate_reputation e' (subject ev) now'))
             = scores rep)
    /\ (forall k, k <> subject ev ->
                  Dict.get k (reputations e') = Dict.get k (reputations e)
                  /\ Dict.get k (performance e') = Dict.get k (performance e)).
Proof.
  intros e ev now e'. subst e'.
  destruct (record_is_update e ev now) as (e0 & kwargs & -> & Hothers).
  split.
  - eexists. split; [apply update_performance_fresh|].
    intro now'. reflexivity.
  - intros k Hk.
    destruct (update_performance_others e0 (subject ev) k kwargs now Hk)
      as [-> ->].
    now apply Hothers.
Qed.

End ReputationOverTime.

Section ReputationRange.
Import ReputationEngine ReputationSpec ReputationOps.

Let nonneg_increment (i : Increment) : Prop :=
  match i with
  | add_tasks_completed n | add_tasks_failed n | add_backups_created n
  | add_souls_traded n | add_clones_created n | add_children_survived n =>
      (0 <= n)%Z
  | add_total_earnings v | add_total_spent v | add_avg_task_value v
  | add_uptime_hours v => 0 <= v
  | add_other _ => True
  end.

Let in_range (x : Q) : Prop := 0 <= x <= 100.

(** Every score of a record is between 0 and 100. *)
Let scores_in_range (r : ReputationScore) : Prop :=
  in_range (reliability r) /\ in_range (quality r) /\ in_range (honesty r)
  /\ in_range (helpfulness r) /\ in_range (longevity r)
  /\ in_range (overall_score r).

Lemma calculated_scores_in_range (e : t) (id : string) (now : Q) :
  nonneg_counters (metrics_of e id) ->
  scores_in_range (snd (calculate_reputation e id now)).
Proof.
  intro Hnn. pose proof (overall_bounds _ Hnn) as Ho. cbv zeta in Ho.
  destruct Hnn as (Hc & Hf & He & _ & Hu & _ & _ & Hcl & Hch).
  unfold scores_in_range, in_range, calculate_reputation. cbv zeta.
  cbn [snd reliability quality honesty helpfulness longevity overall_score].
  unfold metrics_of in *.
  set (p := match Dict.get id (performance e) with
            | Some p => p
            | None => default_metrics id
            end) in *.
  split; [|split; [|split; [|split; [|split]]]].
  - apply round2_bounds;
      destruct (0 <? tasks_completed p + tasks_failed p)%Z eqn:E;
      try lra; apply Z.ltb_lt in E;
      now apply completion_rate_bounds.
  - apply round2_bounds; [|apply py_min_le_l].
    apply py_min_glb; [lra|].
    setoid_replace (total_earnings p / 0.1 * 100)
      with (total_earnings p * 1000) by field.
    lra.
  - apply round2_bounds; lra.
  - apply round2_bounds; [|apply py_min_le_l].
    apply py_min_glb; [lra|].
    change 0 with (inject_Z 0). rewrite <- Zle_Qle. lia.
  - apply round2_bounds; [|apply py_min_le_l].
    apply py_min_glb; [lra|].
    setoid_replace (uptime_hours p / 10)
      with (uptime_hours p * (1 # 10)) by field.
    lra.
  - destruct Ho as [Ho1 Ho2]. apply round2_bounds; assumption.
Qed.

(** No record of the engine has a negative counter and every stored
    score is in range. *)
Let healthy (e : t) : Prop :=
  (forall id p, In (id, p) (performance e) -> nonneg_counters p)
  /\ (forall id r, In (id, r) (reputations e) -> scores_in_range r).

Lemma healthy_metrics (e : t) (id : string) :
  healthy e -> nonneg_counters (metrics_of e id).
Proof.
  intros [Hp _]. unfold metrics_of.
  destruct (Dict.get id (performance e)) as [p|] eqn:E.
  - apply dict_get_some_in in E. now apply (Hp id).
  - apply default_metrics_nonneg.
Qed.

Lemma update_performance_healthy (e : t) (id : string)
  (kwargs : list Increment) (now : Q) :
  Forall nonneg_increment kwargs ->
  healthy e -> healthy (update_performance e id kwargs now).
Proof.
  intros Hk He.
  destruct (update_performance_spec e id kwargs now) as (Hp & Hr & Hm).
  cbv zeta in Hp, Hr, Hm.
  assert (Hnn : nonneg_counters
                  (fold_left add_increment kwargs (metrics_of e id))).
  { apply add_increments_nonneg; [exact Hk|now apply healthy_metrics]. }
  split.
  - intros k p. rewrite Hp. intro Hin. apply dict_set_in in Hin.
    destruct Hin as [Heq|Hin]; [|now apply (proj1 He k)].
    injection Heq as _ ->. exact Hnn.
  - intros k r. rewrite Hr. intro Hin. apply dict_set_in in Hin.
    destruct Hin as [Heq|Hin]; [|now apply (proj2 He k)].
    injection Heq as _ ->.
    apply (calculated_scores_in_range (update_performance e id kwargs now)
             id now).
    now rewrite Hm.
Qed.

Lemma record_healthy (e : t) (ev : Event * Q) :
  nonneg_event ev -> healthy e -> healthy (record e ev).
Proof.
  destruct ev as [ev now]. unfold nonneg_event. cbn [fst].
  intros Hev He.
  destruct ev as [id value [|]|id amount [|]|id [|]|id|id hours];
    cbn [record record_task_completion record_trade record_clone
         record_backup];
    repeat (apply update_performance_healthy;
            [repeat constructor; simpl; try lia; try exact Hev|]);
    exact He.
Qed.

(** X16. Scores stay in range.  From an engine that tracks no agent,
    after every sequence of recorded events whose amounts are not
    negative (task completions and failures, trades, clones, backups,
    uptime), no performance counter is negative and every stored
    reputation has its reliability, quality, honesty, helpfulness,
    longevity and overall score between 0 and 100. *)
Theorem X16_scores_stay_in_range :
  forall events : list (Event * Q),
    Forall nonneg_event events ->
    let e := fold_left record events empty_engine in
    (forall id p, Dict.get id (performance e) = Some p -> nonneg_counters p)
    /\ (forall id r,
           Dict.get id (reputations e) = Some r ->
           0 <= reliability r <= 100 /\ 0 <= quality r <= 100
           /\ 0 <= honesty r <= 100 /\ 0 <= helpfulness r <= 100
           /\ 0 <= longevity r <= 100 /\ 0 <= overall_score r <= 100).
Proof.
  intros events Hev e.
  assert (He : healthy e).
  { subst e.
    assert (H0 : healthy empty_engine) by (split; intros id x []).
    revert H0. generalize empty_engine as e0.
    induction Hev as [|ev events Hnn _ IH]; intros e0 H0; [exact H0|].
    simpl. apply IH. now apply record_healthy. }
  destruct He as [Hp Hr]. split.
  - intros id p Hget. apply dict_get_some_in in Hget. now apply (Hp id).
  - intros id r Hget. apply dict_get_some_in in Hget. now apply (Hr id).
Qed.

Lemma X16_scores_stay_in_range_witness :
  Forall nonneg_event demo_events
  /\ exists r,
      Dict.get "agent_alpha"
        (reputations (fold_left record demo_events empty_engine)) = Some r
      /\ 0 <= reliability r <= 100 /\ 0 <= quality r <= 100
      /\ 0 <= honesty r <= 100 /\ 0 <= helpfulness r <= 100
      /\ 0 <= longevity r <= 100 /\ 0 <= overall_score r <= 100.
Proof.
  assert (Hev : Forall nonneg_event demo_events)
    by (repeat constructor; unfold nonneg_event; simpl; lra).
  split; [exact Hev|].
  destruct (Dict.get "agent_alpha"
              (reputations (fold_left record demo_events empty_engine)))
    as [r|] eqn:E; [|vm_compute in E; discriminate E].
  exists r. split; [reflexivity|].
  exact (proj2 (X16_scores_stay_in_range demo_events Hev) "agent_alpha" r E).
Defined.

End ReputationRange.

Section ReputationMonotone.
Import ReputationEngine ReputationSpec ReputationOps.

Lemma round_half_even_floor (x : Q) :
  (Qfloor x <= round_half_even x <= Qfloor x + 1)%Z.
Proof.
  unfold round_half_even. cbv zeta.
  repeat match goal with
         | |- context [if ?c then _ else _] => destruct c
         end; lia.
Qed.

Lemma round_half_even_mono (x y : Q) :
  x <= y -> (round_half_even x <= round_half_even y)%Z.
Proof.
  intro Hxy.
  pose proof (Qfloor_resp_le _ _ Hxy) as Hf.
  destruct (Z.eq_dec (Qfloor x) (Qfloor y)) as [Heq|Hne].
  - unfold round_half_even. cbv zeta. rewrite <- Heq.
    set (f := Qfloor x).
    assert (Hr : x - inject_Z f <= y - inject_Z f) by lra.
    destruct (Py.ltb (x - inject_Z f) (1 # 2)) eqn:E1.
    + repeat match goal with
             | |- context [if ?c then _ else _] => destruct c
             end; lia.
    + apply ltb_false_iff in E1.
      assert (E1' : Py.ltb (y - inject_Z f) (1 # 2) = false)
        by (apply ltb_false_iff; lra).
      rewrite E1'.
      destruct (Py.ltb (1 # 2) (x - inject_Z f)) eqn:E2.
      * apply ltb_true_iff in E2.
        assert (E2' : Py.ltb (1 # 2) (y - inject_Z f) = true)
          by (apply ltb_true_iff; lra).
        rewrite E2'. lia.
      * destruct (Py.ltb (1 # 2) (y - inject_Z f));
          destruct (Z.even f); lia.
  - pose proof (round_half_even_floor x). pose proof (round_half_even_floor y).
    lia.
Qed.

Lemma round2_mono (x y : Q) : x <= y -> round2 x <= round2 y.
Proof.
  intro H. unfold round2.
  assert (Hz : (round_half_even (x * 100) <= round_half_even (y * 100))%Z)
    by (apply round_half_even_mono; lra).
  rewrite Zle_Qle in Hz.
  set (a := inject_Z (round_half_even (x * 100))) in *.
  set (b := inject_Z (round_half_even (y * 100))) in *.
  setoid_replace (a / 100) with (a * (1 # 100)) by field.
  setoid_replace (b / 100) with (b * (1 # 100)) by field.
  lra.
Qed.

Lemma py_min_mono (c x y : Q) : x <= y -> Py.min c x <= Py.min c y.
Proof.
  intro H. apply py_min_glb; [apply py_min_le_l|].
  pose proof (py_min_le_r c x). lra.
Qed.

(** The completion rate does not fall when one more task succeeds. *)
Lemma completion_rate_grows (c f : Z) :
  (0 <= c)%Z -> (0 <= f)%Z ->
  (if (0 <? c + f)%Z
   then inject_Z c / inject_Z (c + f) * 100
   else 50)
  <= inject_Z (c + 1) / inject_Z (c + 1 + f) * 100.
Proof.
  intros Hc Hf.
  assert (Ht1 : 0 < inject_Z (c + 1 + f)).
  { change 0 with (inject_Z 0). rewrite <- Zlt_Qlt. lia. }
  destruct (0 <? c + f)%Z eqn:E.
  - apply Z.ltb_lt in E.
    assert (Ht : 0 < inject_Z (c + f)).
    { change 0 with (inject_Z 0). rewrite <- Zlt_Qlt. lia. }
    assert (H : inject_Z c / inject_Z (c + f)
                <= inject_Z (c + 1) / inject_Z (c + 1 + f)).
    { apply Qle_shift_div_r; [exact Ht|].
      unfold Qdiv. rewrite <- Qmult_assoc, (Qmult_comm (/ _)), Qmult_assoc.
      apply Qle_shift_div_l; [exact Ht1|].
      rewrite <- !inject_Z_mult, <- Zle_Qle. nia. }
    lra.
  - apply Z.ltb_ge in E.
    assert (c = 0 /\ f = 0)%Z as [-> ->] by lia.
    vm_compute. discriminate.
Qed.

(** X17. Success never costs reputation.  For an agent whose counters
    are not negative, recording a successful task of non-negative value
    leaves helpfulness, longevity and honesty as they are and lowers
    neither the reliability, nor the quality, nor the overall score the
    engine stores for it. *)
Theorem X17_success_never_lowers_reputation :
  forall (e : t) (id : string) (value now0 now : Q),
    nonneg_counters (metrics_of e id) ->
    0 <= value ->
    let before := snd (calculate_reputation e id now0) in
    exists after,
      Dict.get id (reputations (record_task_completion e id value true now))
      = Some after
      /\ reliability before <= reliability after
      /\ quality before <= quality after
      /\ overall_score before <= overall_score after
      /\ honesty after = honesty before
      /\ helpfulness after = helpfulness before
      /\ longevity after = longevity before.
Proof.
  intros e id value now0 now Hnn Hv before. subst before.
  unfold record_task_completion.
  eexists. split; [apply update_performance_fresh|].
  destruct (update_performance_spec e id
              [add_tasks_completed 1; add_total_earnings value] now)
    as (_ & _ & Hm).
  cbv zeta in Hm.
  set (e' := update_performance e id
               [add_tasks_completed 1; add_total_earnings value] now) in *.
  unfold calculate_reputation. cbv zeta.
  cbn [snd reliability quality honesty helpfulness longevity overall_score].
  unfold metrics_of in Hm, Hnn. rewrite Hm.
  set (p := match Dict.get id (performance e) with
            | Some p => p
            | None => default_metrics id
            end) in *.
  cbn [fold_left add_increment tasks_completed tasks_failed total_earnings
       uptime_hours clones_created children_survived].
  destruct Hnn as (Hc & Hf & He & _ & Hu & _ & _ & Hcl & Hch).
  pose proof (completion_rate_grows _ _ Hc Hf) as Hrel.
  assert (Hq : Py.min 100 (total_earnings p / 0.1 * 100)
               <= Py.min 100 ((total_earnings p + value) / 0.1 * 100)).
  { apply py_min_mono.
    setoid_replace (total_earnings p / 0.1 * 100)
      with (total_earnings p * 1000) by field.
    setoid_replace ((total_earnings p + value) / 0.1 * 100)
      with ((total_earnings p + value) * 1000) by field.
    lra. }
  assert (Hpos : (0 <? tasks_completed p + 1 + tasks_failed p)%Z = true)
    by (apply Z.ltb_lt; lia).
  rewrite Hpos.
  split; [now apply round2_mono|].
  split; [now apply round2_mono|].
  split; [apply round2_mono; lra|].
  repeat split.
Qed.

Lemma X17_success_never_lowers_reputation_witness :
  exists after,
    Dict.get "agent_alpha"
      (reputations (record_task_completion demo_engine "agent_alpha" 0.01
                      true 20))
    = Some after
    /\ overall_score
         (snd (calculate_reputation demo_engine "agent_alpha" 10))
       <= overall_score after.
Proof.
  destruct (X17_success_never_lowers_reputation demo_engine "agent_alpha"
              0.01 10 20) as (after & H1 & _ & _ & H2 & _).
  - unfold nonneg_counters. simpl. repeat split; try lia; lra.
  - lra.
  - exists after. auto.
Defined.

End ReputationMonotone.

(** ** Sorting as Python does *)

Section Sorting.
Context {A : Type} (key : A -> Q).

(** [a] may stand before [b] in a list sorted by decreasing key. *)
Let desc (a b : A) : Prop := key b <= key a.

Lemma insert_desc_split (x : A) (l : list A) :
  exists pre post,
    l = pre ++ post
    /\ PySort.insert_desc key x l = pre ++ x :: post
    /\ (forall y, In y pre -> key x < key y)
    /\ (forall y, head post = Some y -> key y <= key x).
Proof.
  induction l as [|y l IH]; simpl.
  - exists [], []. repeat split; try reflexivity; [intros y []|discriminate].
  - destruct (Py.ltb (key x) (key y)) eqn:E.
    + destruct IH as (pre & post & -> & -> & Hpre & Hpost).
      exists (y :: pre), post. repeat split; try reflexivity; [|exact Hpost].
      intros z [<-|Hz]; [now apply ltb_true_iff|now apply Hpre].
    + exists [], (y :: l). repeat split; try reflexivity; [intros z []|].
      simpl. intros z Hz. injection Hz as <-. now apply ltb_false_iff.
Qed.

Lemma insert_desc_perm (x : A) (l : list A) :
  Permutation (PySort.insert_desc key x l) (x :: l).
Proof.
  destruct (insert_desc_split x l) as (pre & post & -> & -> & _).
  symmetry. apply Permutation_middle.
Qed.

Lemma sorted_desc_perm (l : list A) :
  Permutation (PySort.sorted_desc key l) l.
Proof.
  induction l as [|x l IH]; simpl; [constructor|].
  etransitivity; [apply insert_desc_perm|]. now constructor.
Qed.

Lemma insert_desc_sorted (x : A) (l : list A) :
  StronglySorted desc l -> StronglySorted desc (PySort.insert_desc key x l).
Proof.
  induction l as [|y l IH]; simpl; intro Hs.
  - repeat constructor.
  - inversion Hs as [|? ? Hs' Hall]; subst.
    destruct (Py.ltb (key x) (key y)) eqn:E.
    + constructor; [now apply IH|].
      apply ltb_true_iff in E.
      eapply Permutation_Forall; [symmetry; apply insert_desc_perm|].
      constructor; [unfold desc; lra|exact Hall].
    + apply ltb_false_iff in E.
      constructor; [exact Hs|].
      constructor; [exact E|].
      eapply Forall_impl; [|exact Hall].
      unfold desc. intros z Hz. lra.
Qed.

Lemma sorted_desc_sorted (l : list A) :
  StronglySorted desc (PySort.sorted_desc key l).
Proof.
  induction l as [|x l IH]; simpl; [constructor|].
  now apply insert_desc_sorted.
Qed.

(** The sort is stable: the items of any one key keep their order. *)
Lemma sorted_desc_stable (k : Q) (l : list A) :
  filter (fun y => Qeq_bool (key y) k) (PySort.sorted_desc key l)
  = filter (fun y => Qeq_bool (key y) k) l.
Proof.
  induction l as [|x l IH]; simpl; [reflexivity|].
  destruct (insert_desc_split x (PySort.sorted_desc key l))
    as (pre & post & Hl & -> & Hpre & _).
  rewrite <- IH, Hl, !filter_app. simpl.
  destruct (Qeq_bool (key x) k) eqn:E; [|reflexivity].
  apply Qeq_bool_iff in E.
  assert (Hnone : filter (fun y => Qeq_bool (key y) k) pre = []).
  { clear -Hpre E. induction pre as [|y pre IHp]; [reflexivity|]. simpl.
    destruct (Qeq_bool (key y) k) eqn:Ey.
    - apply Qeq_bool_iff in Ey.
      assert (key x < key y) by (apply Hpre; now left). lra.
    - apply IHp. intros z Hz. apply Hpre. now right. }
  now rewrite Hnone.
Qed.

Lemma sorted_prefix_dominates (l : list A) (n : nat) :
  StronglySorted desc l ->
  forall a b, In a (firstn n l) -> In b (skipn n l) -> key b <= key a.
Proof.
  revert n. induction l as [|x l IH]; intros n Hs a b Ha Hb.
  - destruct n; destruct Ha.
  - inversion Hs as [|? ? Hs' Hall]; subst.
    destruct n as [|n]; [destruct Ha|]. simpl in Ha, Hb.
    destruct Ha as [<-|Ha].
    + rewrite Forall_forall in Hall. apply Hall.
      rewrite <- (firstn_skipn n l). apply in_or_app. now right.
    + now apply (IH n).
Qed.

Lemma up_to_firstn (limit : Z) (l : list A) :
  exists n, PySort.up_to limit l = firstn n l
            /\ ((0 <= limit)%Z -> n = Z.to_nat limit).
Proof.
  unfold PySort.up_to. destruct (0 <=? limit)%Z eqn:E.
  - eexists. split; [reflexivity|auto].
  - apply Z.leb_gt in E. eexists. split; [reflexivity|lia].
Qed.

End Sorting.

Section ReputationRanking.
Import ReputationEngine ReputationSpec ReputationOps.

(** X18. [get_top_agents] returns the best.  Its result is the start of
    the stored reputations sorted by decreasing overall score: together
    with the agents left out it is a rearrangement of all stored
    reputations, it is in decreasing order of score, no agent left out
    scores more than an agent returned, agents of equal score come in
    the order of the engine, and for a limit that is not negative it
    holds [min(limit, n)] agents. *)
Theorem X18_top_agents_are_the_best :
  forall (e : t) (limit : Z),
    let all := Dict.values (reputations e) in
    let top := get_top_agents e limit in
    exists rest,
      Permutation (top ++ rest) all
      /\ StronglySorted (fun a b => overall_score b <= overall_score a) top
      /\ (forall a b, In a top -> In b rest ->
                      overall_score b <= overall_score a)
      /\ (forall k,
             filter (fun r => Qeq_bool (overall_score r) k) (top ++ rest)
             = filter (fun r => Qeq_bool (overall_score r) k) all)
      /\ ((0 <= limit)%Z ->
          List.length top = Nat.min (Z.to_nat limit) (List.length all)).
Proof.
  intros e limit all top. subst top. unfold get_top_agents. fold all.
  set (sorted := PySort.sorted_desc overall_score all).
  destruct (up_to_firstn limit sorted) as (n & -> & Hn).
  exists (skipn n sorted).
  pose proof (sorted_desc_sorted overall_score all) as Hs. fold sorted in Hs.
  rewrite firstn_skipn.
  split; [apply sorted_desc_perm|].
  split.
  { rewrite <- (firstn_skipn n sorted) in Hs.
    clear -Hs. revert Hs. generalize (skipn n sorted) as tl.
    induction (firstn n sorted) as [|x l IH]; intros tl Hs; [constructor|].
    simpl in Hs. inversion Hs as [|? ? Hs' Hall]; subst.
    constructor; [now apply (IH tl)|].
    apply Forall_app in Hall. apply Hall. }
  split; [now apply sorted_prefix_dominates|].
  split; [intro k; apply sorted_desc_stable|].
  intro Hl. rewrite (Hn Hl), length_firstn.
  unfold sorted.
  now rewrite (Permutation_length (sorted_desc_perm overall_score all)).
Qed.

Lemma trust_buckets_partition (l : list ReputationScore) :
  (List.length (filter (fun r => Qle_bool 80 (overall_score r)) l)
   + List.length (filter (fun r => Qle_bool 60 (overall_score r)
                                   && Py.ltb (overall_score r) 80) l)
   + List.length (filter (fun r => Qle_bool 40 (overall_score r)
                                   && Py.ltb (overall_score r) 60) l)
   + List.length (filter (fun r => Py.ltb (overall_score r) 40) l))%nat
  = List.length l.
Proof.
  induction l as [|r l IH]; [reflexivity|].
  cbn [filter List.length].
  unfold Py.ltb in *.
  destruct (Qle_bool 80 (overall_score r)) eqn:E80;
    destruct (Qle_bool 60 (overall_score r)) eqn:E60;
    destruct (Qle_bool 40 (overall_score r)) eqn:E40;
    cbn [negb andb List.length]; try lia;
    repeat match goal with
           | H : Qle_bool _ _ = true |- _ => apply Qle_bool_iff in H
           | H : Qle_bool ?a ?b = false |- _ =>
               assert (b < a)
                 by (apply Qnot_le_lt; intro Hc; apply Qle_bool_iff in Hc;
                     congruence);
               clear H
           end; exfalso; lra.
Qed.

Lemma rep_sum_bounds (l : list Q) (lo hi : Q) :
  (forall x, In x l -> lo <= x <= hi) ->
  inject_Z (Z.of_nat (List.length l)) * lo <= ReputationOps.sum l
  /\ ReputationOps.sum l <= inject_Z (Z.of_nat (List.length l)) * hi.
Proof. apply (sum_bounds l lo hi). Qed.

(** X19. The analytics account for every agent.  [get_network_analytics]
    returns the short answer exactly when the engine tracks no agent.
    Otherwise every tracked agent falls in exactly one of the four trust
    bands, so their counts add up to the number of agents; the top agent
    is a tracked agent whose overall score no other exceeds; and when
    every overall score is between 0 and 100, so is the average. *)
Theorem X19_analytics_account_for_every_agent :
  forall e : t,
    let all := Dict.values (reputations e) in
    match get_network_analytics e with
    | None => reputations e = []
    | Some a =>
        total_agents a = List.length all
        /\ (0 < total_agents a)%nat
        /\ (trusted (trust_distribution a)
            + established (trust_distribution a)
            + new (trust_distribution a)
            + untrusted (trust_distribution a))%nat
           = total_agents a
        /\ (exists r,
               top_agent a = Some (rep_agent_id r)
               /\ In r all
               /\ forall r', In r' all -> overall_score r' <= overall_score r)
        /\ ((forall r, In r all -> 0 <= overall_score r <= 100) ->
            0 <= average_reputation a <= 100)
    end.
Proof.
  intros e all. unfold get_network_analytics. cbv zeta. fold all.
  assert (Hlen : List.length all = List.length (reputations e))
    by (unfold all, Dict.values; apply length_map).
  destruct (List.length (reputations e) =? 0)%nat eqn:E.
  - apply Nat.eqb_eq in E. now apply length_zero_iff_nil.
  - apply Nat.eqb_neq in E.
    cbn [total_agents trust_distribution trusted established new untrusted
         top_agent average_reputation].
    split; [now rewrite Hlen|]. split; [lia|].
    split; [rewrite trust_buckets_partition; exact Hlen|].
    split.
    + unfold get_top_agents, PySort.up_to. fold all.
      cbn [Z.leb Z.compare Z.to_nat Pos.to_nat Pos.iter_op Nat.add].
      pose proof (sorted_desc_perm overall_score all) as Hperm.
      pose proof (sorted_desc_sorted overall_score all) as Hs.
      destruct (PySort.sorted_desc overall_score all) as [|r sorted] eqn:Es.
      * apply Permutation_length in Hperm. simpl in Hperm. lia.
      * cbn [firstn]. exists r. split; [reflexivity|].
        split; [apply (Permutation_in r Hperm); now left|].
        intros r' Hr'.
        apply (Permutation_in r' (Permutation_sym Hperm)) in Hr'.
        inversion Hs as [|? ? _ Hall]; subst.
        destruct Hr' as [<-|Hr']; [lra|].
        rewrite Forall_forall in Hall. now apply Hall.
    + intro Hrange. apply round2_bounds.
      * destruct (rep_sum_bounds (map overall_score all) 0 100) as [H1 _].
        { intros x Hx. apply in_map_iff in Hx.
          destruct Hx as (r & <- & Hr). now apply Hrange. }
        apply Qle_shift_div_l.
        -- change 0 with (inject_Z 0). rewrite <- Zlt_Qlt. lia.
        -- rewrite Qmult_0_l. rewrite Qmult_0_r in H1. exact H1.
      * destruct (rep_sum_bounds (map overall_score all) 0 100) as [_ H2].
        { intros x Hx. apply in_map_iff in Hx.
          destruct Hx as (r & <- & Hr). now apply Hrange. }
        apply Qle_shift_div_r.
        -- change 0 with (inject_Z 0). rewrite <- Zlt_Qlt. lia.
        -- rewrite length_map, Hlen in H2. now rewrite Qmult_comm.
Qed.

End ReputationRanking.

Section ScalingDecisions.
Import AutoScalingManager ScalingOps.





End ScalingDecisions.

Section ScalingLoop.
Import AutoScalingManager ScalingOps.

Variable sample : list Soul.Capability -> nat -> list Soul.Capability.







End ScalingLoop.

Section ChildMonitoring.
Import AutoScalingManager ScalingOps.

Let has_status (s : string) (c : ChildAgent) : bool :=
  String.eqb (status c) s.

Let struggling (c : ChildAgent) : bool :=
  has_status "alive" c && Py.ltb (earnings c) (initial_funding c * 0.5).

Let concern (c : ChildAgent) : string :=
  (child_id c ++ " earnings low")%string.

(** The loop of [monitor_children] from any counters. *)
Lemma monitor_loop (cs : list ChildAgent) :
  forall s0 : Stats,
    let s := fold_left monitor_child cs s0 in
    total s = total s0
    /\ alive s
       = (alive s0 + List.length (filter (has_status "alive") cs))%nat
    /\ dead s = (dead s0 + List.length (filter (has_status "dead") cs))%nat
    /\ gestating s
       = (gestating s0
          + List.length (filter (has_status "gestating") cs))%nat
    /\ total_earnings s
       == total_earnings s0
          + NetworkOps.sum (map earnings (filter (has_status "alive") cs))
    /\ concerns s = concerns s0 ++ map concern (filter struggling cs).
Proof.
  induction cs as [|c cs IH]; intro s0.
  - cbn. repeat split; try lia.
    + unfold NetworkOps.sum. cbn. ring.
    + now rewrite app_nil_r.
  - cbn [fold_left]. cbv zeta in IH.
    destruct (IH (monitor_child s0 c)) as (Ht & Ha & Hd & Hg & He & Hc).
    rewrite Ht, Ha, Hd, Hg, He, Hc. clear IH Ht Ha Hd Hg He Hc.
    unfold monitor_child, struggling, has_status. cbn [filter].
    destruct (String.eqb (status c) "alive") eqn:Ea.
    + apply String.eqb_eq in Ea. rewrite Ea.
      cbn [String.eqb Ascii.eqb Bool.eqb andb total alive dead gestating
           total_earnings concerns map List.length].
      repeat split; try lia.
      * rewrite sum_cons. ring.
      * destruct (Py.ltb (earnings c) (initial_funding c * 0.5));
          cbn [map]; [now rewrite <- app_assoc|reflexivity].
    + cbn [andb].
      destruct (String.eqb (status c) "dead") eqn:Ed.
      * apply String.eqb_eq in Ed. rewrite Ed.
        cbn [String.eqb Ascii.eqb Bool.eqb total alive dead gestating
             total_earnings concerns List.length].
        repeat split; try lia; reflexivity.
      * destruct (String.eqb (status c) "gestating") eqn:Eg;
          cbn [total alive dead gestating total_earnings concerns
               List.length];
          repeat split; try lia; reflexivity.
Qed.

(** X22. [monitor_children] counts every child at most once.  [total]
    is the number of children; [alive], [dead] and [gestating] are the
    numbers of children with that status, so their sum is at most
    [total], and equals it when every status is one of the three;
    [total_earnings] adds the earnings of the children alive; and the
    concerns name, in the order of the manager, the children alive that
    earned less than half their funding, so there are at most [alive]
    of them. *)
Theorem X22_monitor_children_counts :
  forall m : t,
    let cs := Dict.values (children m) in
    let s := monitor_children m in
    total s = List.length cs
    /\ alive s = List.length (filter (has_status "alive") cs)
    /\ dead s = List.length (filter (has_status "dead") cs)
    /\ gestating s = List.length (filter (has_status "gestating") cs)
    /\ (alive s + dead s + gestating s <= total s)%nat
    /\ (Forall (fun c => status c = "alive" \/ status c = "dead"
                         \/ status c = "gestating") cs ->
        (alive s + dead s + gestating s)%nat = total s)
    /\ total_earnings s
       == NetworkOps.sum (map earnings (filter (has_status "alive") cs))
    /\ concerns s = map concern (filter struggling cs)
    /\ (List.length (concerns s) <= alive s)%nat.
Proof.
  intros m cs s. subst s. unfold monitor_children. fold cs.
  destruct (monitor_loop cs (mkStats (List.length (children m)) 0 0 0 0 []))
    as (Ht & Ha & Hd & Hg & He & Hc).
  rewrite Ht, Ha, Hd, Hg, Hc.
  cbn [total alive dead gestating total_earnings concerns Nat.add app] in *.
  assert (Hlen : List.length (children m) = List.length cs)
    by (unfold cs, Dict.values; now rewrite length_map).
  assert (Hpart :
            (List.length (filter (has_status "alive") cs)
             + List.length (filter (has_status "dead") cs)
             + List.length (filter (has_status "gestating") cs)
             <= List.length cs)%nat
            /\ (Forall (fun c => status c = "alive" \/ status c = "dead"
                                 \/ status c = "gestating") cs ->
                (List.length (filter (has_status "alive") cs)
                 + List.length (filter (has_status "dead") cs)
                 + List.length (filter (has_status "gestating") cs))%nat
                = List.length cs)).
  { clear. induction cs as [|c cs [IH1 IH2]]; [split; auto|].
    unfold has_status in *. cbn [filter].
    split.
    - destruct (String.eqb (status c) "alive") eqn:Ea.
      + apply String.eqb_eq in Ea. rewrite Ea.
        cbn [String.eqb Ascii.eqb Bool.eqb List.length]. lia.
      + destruct (String.eqb (status c) "dead") eqn:Ed.
        * apply String.eqb_eq in Ed. rewrite Ed.
          cbn [String.eqb Ascii.eqb Bool.eqb List.length]. lia.
        * destruct (String.eqb (status c) "gestating");
            cbn [List.length]; lia.
    - intro Hall. inversion Hall as [|? ? Hc Hcs]; subst.
      specialize (IH2 Hcs).
      destruct Hc as [-> | [-> | ->]];
        cbn [String.eqb Ascii.eqb Bool.eqb List.length]; lia. }
  destruct Hpart as [Hle Heq].
  repeat split; try lia.
  - intro Hall. rewrite (Heq Hall). lia.
  - rewrite He. ring.
  - rewrite length_map.
    clear. induction cs as [|c cs IH]; [cbn; lia|].
    unfold struggling in *. cbn [filter].
    destruct (has_status "alive" c); cbn [andb List.length].
    + destruct (Py.ltb _ _); cbn [List.length]; lia.
    + exact IH.
Qed.

Lemma dict_set_values_split {V : Type} (k : string) (v : V) (d : Dict.t V) :
  Dict.get k d = Some v ->
  exists l1 l2,
    Dict.values d = l1 ++ v :: l2
    /\ forall v', Dict.values (Dict.set k v' d) = l1 ++ v' :: l2.
Proof.
  induction d as [|[k' v0] d IH]; simpl; [discriminate|].
  destruct (String.eqb k k') eqn:E.
  - intros [= ->]. exists [], (Dict.values d). split; [reflexivity|].
    intro v'. reflexivity.
  - intro Hget. destruct (IH Hget) as (l1 & l2 & H1 & H2).
    exists (v0 :: l1), l2. unfold Dict.values in *. simpl.
    split; [now rewrite H1|]. intro v'. now rewrite H2.
Qed.

(** X23. [provision_child] brings one child to life.  For an unknown
    id it returns [False] and changes nothing.  For a stored child it
    returns [True], marks that child alive and changes nothing else:
    the keys and their order and every other child stay, and a second
    call gives the same manager.  Seen by [monitor_children], a
    gestating child that is provisioned moves from [gestating] to
    [alive] while [total] and [dead] stay. *)
Theorem X23_provision_child_brings_to_life :
  forall (m : t) (id : string),
    let m' := fst (provision_child m id) in
    let ok := snd (provision_child m id) in
    ok = Dict.mem id (children m)
    /\ (ok = false -> m' = m)
    /\ Dict.keys (children m') = Dict.keys (children m)
    /\ (forall k, k <> id ->
                  Dict.get k (children m') = Dict.get k (children m))
    /\ provision_child m' id = (m', ok)
    /\ (forall c,
           Dict.get id (children m) = Some c ->
           Dict.get id (children m') = Some (set_status c "alive")
           /\ (status c = "gestating" ->
               alive (monitor_children m')
               = (alive (monitor_children m) + 1)%nat
               /\ (gestating (monitor_children m') + 1)%nat
                  = gestating (monitor_children m)
               /\ dead (monitor_children m') = dead (monitor_children m)
               /\ total (monitor_children m')
                  = total (monitor_children m))).
Proof.
  intros m id m' ok. subst m' ok. unfold provision_child, Dict.mem.
  destruct (Dict.get id (children m)) as [c|] eqn:Eget; cbn [fst snd].
  2:{ repeat split; auto; try discriminate.
      unfold provision_child. now rewrite Eget. }
  cbn [children manager_parent_id inheritance_mode].
  assert (Hmem : Dict.mem id (children m) = true)
    by (unfold Dict.mem; now rewrite Eget).
  split; [reflexivity|]. split; [discriminate|].
  split; [now rewrite dict_keys_set, Hmem|].
  split; [intros k Hk; now apply dict_get_set_other|].
  split.
  { rewrite dict_get_set_same, dict_set_set. reflexivity. }
  intros c' [= <-]. split; [apply dict_get_set_same|].
  intro Hst.
  destruct (dict_set_values_split id c (children m) Eget)
    as (l1 & l2 & Hv & Hv').
  destruct (monitor_loop (Dict.values (children m))
              (mkStats (List.length (children m)) 0 0 0 0 []))
    as (Ht & Ha & Hd & Hg & _).
  fold (monitor_children m) in Ht, Ha, Hd, Hg.
  set (m' := mkManager (manager_parent_id m)
               (Dict.set id (set_status c "alive") (children m))
               (inheritance_mode m)).
  destruct (monitor_loop (Dict.values (children m'))
              (mkStats (List.length (children m')) 0 0 0 0 []))
    as (Ht' & Ha' & Hd' & Hg' & _).
  fold (monitor_children m') in Ht', Ha', Hd', Hg'.
  rewrite Ht, Ha, Hd, Hg, Ht', Ha', Hd', Hg'.
  cbn [total alive dead gestating children m'].
  rewrite (Hv' (set_status c "alive")), Hv.
  rewrite !filter_app, !length_app. unfold has_status. cbn [filter].
  cbn [status set_status]. rewrite Hst.
  cbn [String.eqb Ascii.eqb Bool.eqb List.length].
  repeat split; try lia.
  rewrite <- (length_map fst (Dict.set id _ _)), <- (length_map fst (children m)).
  change (map fst ?d) with (Dict.keys d).
  now rewrite dict_keys_set, Hmem.
Qed.

End ChildMonitoring.

Section Inheritance.
Import AutoScalingManager.

Lemma scaling_insert_desc (c : Soul.Capability) (l : list Soul.Capability) :
  insert_desc c l = PySort.insert_desc earnings_key c l.
Proof.
  induction l as [|d l IH]; simpl; [reflexivity|]. now rewrite IH.
Qed.

Lemma scaling_sorted_desc (caps : list Soul.Capability) :
  sorted_desc caps = PySort.sorted_desc earnings_key caps.
Proof.
  unfold sorted_desc, PySort.sorted_desc.
  induction caps as [|c caps IH]; simpl; [reflexivity|].
  now rewrite IH, scaling_insert_desc.
Qed.

Lemma sorted_firstn {A : Type} (R : A -> A -> Prop) (n : nat) (l : list A) :
  StronglySorted R l -> StronglySorted R (firstn n l).
Proof.
  intro Hs. revert n.
  induction Hs as [|x l Hs IH Hall]; intros [|n]; simpl; try constructor.
  - apply IH.
  - rewrite Forall_forall in *. intros y Hy. apply Hall.
    rewrite <- (firstn_skipn n l). apply in_or_app. now left.
Qed.

(** X24. A child inherits its parent's capabilities, the best ones
    first.  Whatever the inheritance mode (for [random], given a sampler
    that returns [k] items of the population, as [random.sample] does),
    [select_inherited_capabilities] returns names of the parent's
    capabilities only: all of them in their order in mode [all],
    otherwise [min(3, n)] of them.  In mode [best] they are the names of
    the first three capabilities in decreasing order of earnings (a
    missing [earnings] counts as 0): no capability left out earned more
    than a chosen one, and capabilities of equal earnings keep the order
    of the parent. *)
Theorem X24_inherits_parents_best :
  forall (sample : list Soul.Capability -> nat -> list Soul.Capability)
         (m : t) (caps : list Soul.Capability),
    (forall l k, incl (sample l k) l
                 /\ ((k <= List.length l)%nat ->
                     List.length (sample l k) = k)) ->
    let names := select_inherited_capabilities sample m caps in
    (forall n, In n names -> In n (map Soul.cap_name caps))
    /\ (inheritance_mode m = "all" -> names = map Soul.cap_name caps)
    /\ (inheritance_mode m <> "all" ->
        List.length names = Nat.min 3 (List.length caps))
    /\ (inheritance_mode m = "best" ->
        exists chosen rest,
          names = map Soul.cap_name chosen
          /\ Permutation (chosen ++ rest) caps
          /\ StronglySorted
               (fun a b => earnings_key b <= earnings_key a) chosen
          /\ (forall a b, In a chosen -> In b rest ->
                          earnings_key b <= earnings_key a)
          /\ (forall k,
                 filter (fun c => Qeq_bool (earnings_key c) k)
                        (chosen ++ rest)
                 = filter (fun c => Qeq_bool (earnings_key c) k) caps)).
Proof.
  intros sample m caps Hsample names. subst names.
  unfold select_inherited_capabilities. cbv zeta.
  rewrite scaling_sorted_desc.
  pose proof (sorted_desc_perm earnings_key caps) as Hperm.
  pose proof (sorted_desc_sorted earnings_key caps) as Hsorted.
  set (sorted := PySort.sorted_desc earnings_key caps) in *.
  assert (Hfirst : forall l : list Soul.Capability,
             List.length (firstn 3 l) = Nat.min 3 (List.length l))
    by (intro l; apply length_firstn).
  assert (Hin : forall (l : list Soul.Capability) n,
             incl l caps ->
             In n (map Soul.cap_name l) -> In n (map Soul.cap_name caps)).
  { intros l n Hl Hn. apply in_map_iff in Hn. destruct Hn as (c & <- & Hc).
    apply in_map. now apply Hl. }
  destruct (String.eqb (inheritance_mode m) "best") eqn:Ebest.
  { apply String.eqb_eq in Ebest. rewrite Ebest.
    split.
    { intros n Hn. apply (Hin (firstn 3 sorted)); [|exact Hn].
      intros c Hc. apply (Permutation_in c Hperm).
      rewrite <- (firstn_skipn 3 sorted). apply in_or_app. now left. }
    split; [discriminate|].
    split.
    { intros _. rewrite length_map, Hfirst.
      now rewrite (Permutation_length Hperm). }
    intros _. exists (firstn 3 sorted), (skipn 3 sorted).
    rewrite firstn_skipn.
    split; [reflexivity|]. split; [exact Hperm|].
    split; [now apply sorted_firstn|].
    split; [now apply sorted_prefix_dominates|].
    intro k. apply sorted_desc_stable. }
  apply String.eqb_neq in Ebest.
  destruct (String.eqb (inheritance_mode m) "all") eqn:Eall.
  { apply String.eqb_eq in Eall.
    repeat split; auto; try congruence. }
  apply String.eqb_neq in Eall.
  destruct (String.eqb (inheritance_mode m) "random") eqn:Erandom.
  { destruct (Hsample caps (Nat.min 3 (List.length caps))) as [Hincl Hlen].
    split; [intros n Hn; now apply (Hin _ n Hincl)|].
    split; [congruence|].
    split; [|congruence].
    intros _. rewrite length_map. apply Hlen. lia. }
  split.
  { intros n Hn. apply (Hin (firstn 3 caps)); [|exact Hn].
    intros c Hc. rewrite <- (firstn_skipn 3 caps). apply in_or_app.
    now left. }
  split; [congruence|].
  split; [|congruence].
  intros _. now rewrite length_map, Hfirst.
Qed.

Lemma X24_inherits_parents_best_witness :
  select_inherited_capabilities ScalingExamples.first_k
    ScalingExamples.fresh_manager
    [Soul.mkCapability "coding" (Some 0.02);
     Soul.mkCapability "design" None;
     Soul.mkCapability "trading" (Some 0.05);
     Soul.mkCapability "testing" (Some 0.02)]
  = ["trading"; "coding"; "testing"]
  /\ List.length
       (select_inherited_capabilities ScalingExamples.first_k
          ScalingExamples.fresh_manager
          [Soul.mkCapability "coding" (Some 0.02);
           Soul.mkCapability "design" None;
           Soul.mkCapability "trading" (Some 0.05);
           Soul.mkCapability "testing" (Some 0.02)])
     = 3%nat.
Proof.
  split; [reflexivity|].
  refine (proj1 (proj2 (proj2
            (X24_inherits_parents_best ScalingExamples.first_k
               ScalingExamples.fresh_manager _ _))) _).
  - intros l k. unfold ScalingExamples.first_k. split.
    + intros c Hc. rewrite <- (firstn_skipn k l). apply in_or_app.
      now left.
    + intro Hk. rewrite length_firstn. lia.
  - discriminate.
Defined.

End Inheritance.

Section BackupVerification.
Import IpfsStorage BackupOps BackupExamples.

Variable w : World.

(** What [backup_soul] does to the manager. *)
Lemma backup_soul_cases (m : OnChainSoulManager)
  (soul_data : list (string * json)) (backup_type : string) (now : Q) :
  (exists s c r,
      backup_soul w m soul_data backup_type now
      = (mkOnChainSoulManager (soul_id m) s (backup_interval m) now (Some c)
           (backup_history m ++ [r]), Ok c)
      /\ upload_to_ipfs w (ipfs m) soul_data false = (s, Ok c)
      /\ cid r = c /\ timestamp r = now /\ type r = backup_type
      /\ hash r = content_hash w (JDict soul_data))
  \/ (exists s,
         backup_soul w m soul_data backup_type now
         = (mkOnChainSoulManager (soul_id m) s (backup_interval m)
              (last_backup m) (current_cid m) (backup_history m), Raised)
         /\ use_local (ipfs m) = true).
Proof.
  unfold backup_soul.
  destruct (upload_to_ipfs w (ipfs m) soul_data false) as [s [c|]] eqn:Eup.
  - left. do 3 eexists. split; [reflexivity|]. now repeat split.
  - right. exists s. split; [reflexivity|].
    unfold upload_to_ipfs in Eup.
    destruct (use_local (ipfs m)); [reflexivity|discriminate].
Qed.

(** X25. A backup is what [verify_latest_backup] verifies.  Whatever
    the hash function, the serializer and the IPFS services do:
    [backup_soul] raises only with a local node, and then records
    nothing; otherwise it appends one record to the history (handle,
    hash of the soul, time and type of the call), makes the handle the
    current one, and [verify_latest_backup] then accepts the soul that
    was backed up, and any other soul exactly when its hash is the
    same.  Without any backup nothing is verified. *)
Theorem X25_backup_is_verified :
  forall (m : OnChainSoulManager) (soul_data : list (string * json))
         (backup_type : string) (now : Q),
    match backup_soul w m soul_data backup_type now with
    | (m', Ok c) =>
        verify_latest_backup w m' soul_data = true
        /\ (forall other,
               verify_latest_backup w m' other
               = String.eqb (content_hash w (JDict soul_data))
                            (content_hash w (JDict other)))
        /\ (exists r,
               get_backup_history m' = get_backup_history m ++ [r]
               /\ cid r = c /\ timestamp r = now /\ type r = backup_type
               /\ hash r = content_hash w (JDict soul_data))
        /\ current_cid m' = Some c
        /\ last_backup m' = now
    | (m', Raised) =>
        use_local (ipfs m) = true
        /\ get_backup_history m' = get_backup_history m
        /\ current_cid m' = current_cid m
        /\ last_backup m' = last_backup m
    end
    /\ (get_backup_history m = [] ->
        verify_latest_backup w m soul_data = false).
Proof.
  intros m soul_data backup_type now. split.
  - destruct (backup_soul_cases m soul_data backup_type now)
      as [(s & c & r & -> & _ & Hc & Ht & Hty & Hh) | (s & -> & Hl)].
    + unfold verify_latest_backup, get_backup_history.
      cbn [backup_history current_cid last_backup].
      rewrite last_record_app, Hh.
      split; [apply String.eqb_refl|].
      split; [reflexivity|].
      split; [now exists r|]. now split.
    + now repeat split.
  - unfold get_backup_history, verify_latest_backup. now intros ->.
Qed.

(** X26. At most one automatic backup per interval.  [auto_backup]
    does nothing before [backup_interval] seconds have passed since the
    last backup.  When it backs up, the record appended is of type
    [auto] and carries the time of the call, and every [auto_backup]
    less than [backup_interval] seconds later does nothing, whatever
    soul it is given. *)
Theorem X26_auto_backup_once_per_interval :
  forall (m : OnChainSoulManager) (soul_data : list (string * json))
         (now : Q),
    match auto_backup w m soul_data now with
    | (m', Ok None) => m' = m /\ now - last_backup m < backup_interval m
    | (m', Ok (Some c)) =>
        backup_interval m <= now - last_backup m
        /\ (exists r,
               get_backup_history m' = get_backup_history m ++ [r]
               /\ cid r = c /\ type r = "auto" /\ timestamp r = now)
        /\ (forall soul_data' now',
               now' - now < backup_interval m ->
               auto_backup w m' soul_data' now' = (m', Ok None))
    | (m', Raised) =>
        backup_interval m <= now - last_backup m
        /\ get_backup_history m' = get_backup_history m
        /\ last_backup m' = last_backup m
    end.
Proof.
  intros m soul_data now. unfold auto_backup at 1.
  destruct (Qle_bool (backup_interval m) (now - last_backup m)) eqn:Edue.
  2:{ split; [reflexivity|]. apply Qnot_le_lt. intro Hc.
      apply Qle_bool_iff in Hc. congruence. }
  apply Qle_bool_iff in Edue.
  destruct (backup_soul_cases m soul_data "auto" now)
    as [(s & c & r & -> & _ & Hc & Ht & Hty & _) | (s & -> & _)].
  - split; [exact Edue|].
    split; [exists r; now repeat split|].
    intros soul_data' now' Hsoon. unfold auto_backup.
    cbn [backup_interval last_backup].
    destruct (Qle_bool (backup_interval m) (now' - now)) eqn:E;
      [|reflexivity].
    apply Qle_bool_iff in E. lra.
  - now repeat split.
Qed.

(** X27. [verify_content] confirms a backup.  In simulation mode, for
    a soul whose indented JSON text decodes to a document that is not
    empty and has the same sorted serialization as the soul: after
    [backup_soul], [verify_content] on the returned handle answers
    [True] for the recorded hash, and for any other expected hash
    exactly when it equals the recorded one; it reads the cache and
    leaves the storage as it is. *)
Theorem X27_verify_content_confirms_backup :
  forall (m : OnChainSoulManager) (soul_data : list (string * json))
         (backup_type : string) (now : Q) (data : json),
    use_local (ipfs m) = false ->
    json_loads w (json_dumps w (Some 2%nat) false (JDict soul_data))
    = Some data ->
    truthy data = true ->
    json_dumps w None true data = json_dumps w None true (JDict soul_data) ->
    exists m' c r,
      backup_soul w m soul_data backup_type now = (m', Ok c)
      /\ last_record (backup_history m') = Some r
      /\ verify_content w (ipfs m') c (hash r) = (ipfs m', Ok true)
      /\ (forall expected,
             verify_content w (ipfs m') c expected
             = (ipfs m', Ok (String.eqb (hash r) expected)))
      /\ verify_latest_backup w m' soul_data = true.
Proof.
  intros m soul_data backup_type now data Hsim Hload Htrue Hsorted.
  destruct (backup_soul_cases m soul_data backup_type now)
    as [(s & c & r & Hb & Hup & Hc & Ht & Hty & Hh) | (s & _ & Hl)];
    [|congruence].
  rewrite Hb. do 3 eexists. split; [reflexivity|].
  cbn [backup_history ipfs].
  split; [apply last_record_app|].
  unfold upload_to_ipfs in Hup. rewrite Hsim in Hup.
  injection Hup as <- <-.
  assert (Hv : forall expected,
             verify_content w
               (mkIPFSStorage false
                  (Dict.set
                     (cache_file
                        (calculate_hash w
                           (json_dumps w (Some 2%nat) false
                              (JDict soul_data))))
                     (json_dumps w (Some 2%nat) false (JDict soul_data))
                     (cache (ipfs m))))
               (calculate_hash w
                  (json_dumps w (Some 2%nat) false (JDict soul_data)))
               expected
             = (mkIPFSStorage false
                  (Dict.set
                     (cache_file
                        (calculate_hash w
                           (json_dumps w (Some 2%nat) false
                              (JDict soul_data))))
                     (json_dumps w (Some 2%nat) false (JDict soul_data))
                     (cache (ipfs m))),
                Ok (String.eqb (hash r) expected))).
  { intro expected. unfold verify_content, retrieve_from_ipfs.
    cbn [cache]. rewrite dict_get_set_same, Hload, Htrue.
    rewrite Hh. unfold content_hash. now rewrite Hsorted. }
  split; [rewrite Hv; now rewrite String.eqb_refl|].
  split; [exact Hv|].
  unfold verify_latest_backup. cbn [backup_history].
  rewrite last_record_app, Hh. apply String.eqb_refl.
Qed.

End BackupVerification.

Lemma X27_verify_content_confirms_backup_witness :
  exists m' c r,
    IpfsStorage.backup_soul BackupExamples.example_world
      BackupExamples.fresh_manager BackupExamples.demo_soul "manual" 1000
    = (m', IpfsStorage.Ok c)
    /\ IpfsStorage.last_record (IpfsStorage.backup_history m') = Some r
    /\ BackupOps.verify_content BackupExamples.example_world
         (IpfsStorage.ipfs m') c (IpfsStorage.hash r)
       = (IpfsStorage.ipfs m', IpfsStorage.Ok true)
    /\ (forall expected,
           BackupOps.verify_content BackupExamples.example_world
             (IpfsStorage.ipfs m') c expected
           = (IpfsStorage.ipfs m',
              IpfsStorage.Ok (String.eqb (IpfsStorage.hash r) expected)))
    /\ BackupOps.verify_latest_backup BackupExamples.example_world m'
         BackupExamples.demo_soul = true.
Proof.
  apply (X27_verify_content_confirms_backup BackupExamples.example_world
           BackupExamples.fresh_manager BackupExamples.demo_soul "manual"
           1000 (IpfsStorage.JDict BackupExamples.demo_soul)); reflexivity.
Defined.

Section SurvivalWork.
Import SurvivalOps.









End SurvivalWork.

Section SurvivalMarket.
Import SurvivalOps.

Let names (caps : list Capability) : list string := map cap_name caps.




End SurvivalMarket.

Section SurvivalHeartbeat.
Import SurvivalOps.







End SurvivalHeartbeat.
